(** * Student records backend: the in-memory record store of
    [src/student_management_backend/src/api/main.py]

    A shallow embedding of the request models ([StudentIn], [StudentOut],
    [StatusResponse]), of the process-wide dictionary [students] and of the
    five handlers ([get_students], [create_student], [update_student],
    [delete_student], [get_student_by_id]), followed by the properties of
    the specification that are settled on them.

    Conventions.
    - A Python [str] is a [string]; its 8-bit characters stand for the code
      points U+0000..U+00FF, on which [str.lower], [str.strip] and the
      ordering of [str] are modelled.
    - A Python [int] is a [Z].
    - The dictionary [students] keeps insertion order, so it is an
      association list; every handler takes the dictionary and returns the
      dictionary it leaves behind.
    - [uuid.uuid4()] is an input of [create_student]: the string it drew.
    - A handler either returns a value or raises ([result]). *)

From Stdlib Require Import Bool List ZArith NArith Lia.
From Stdlib Require Import Ascii String.
From Stdlib Require Import Sorted Permutation.
Import ListNotations.

Local Open Scope string_scope.
Local Open Scope Z_scope.

(* ================================================================= *)
(** ** Python strings *)

Module PyStr.

(** [c.isspace()] on U+0000..U+00FF: TAB..CR, FS..US, SPACE, NEL, NBSP. *)
Definition isspace (c : ascii) : bool :=
  let n := N_of_ascii c in
  ((9 <=? n) && (n <=? 13) || (28 <=? n) && (n <=? 32)
   || (n =? 133) || (n =? 160))%N.

(** [c.lower()] on U+0000..U+00FF: A..Z and the capital letters
    U+00C0..U+00DE (the multiplication sign U+00D7 apart) move up by 32. *)
Definition lower_char (c : ascii) : ascii :=
  let n := N_of_ascii c in
  if ((65 <=? n) && (n <=? 90)
      || (192 <=? n) && (n <=? 222) && negb (n =? 215))%N
  then ascii_of_N (n + 32) else c.

(** [s.lower()] *)
Fixpoint lower (s : string) : string :=
  match s with
  | EmptyString => EmptyString
  | String c s' => String (lower_char c) (lower s')
  end.

(** [not s] *)
Definition is_empty (s : string) : bool :=
  match s with EmptyString => true | String _ _ => false end.

(** [s.lstrip()] *)
Fixpoint lstrip (s : string) : string :=
  match s with
  | EmptyString => EmptyString
  | String c s' => if isspace c then lstrip s' else s
  end.

(** [s.rstrip()] *)
Fixpoint rstrip (s : string) : string :=
  match s with
  | EmptyString => EmptyString
  | String c s' =>
      let r := rstrip s' in
      if isspace c && is_empty r then EmptyString else String c r
  end.

(** [s.strip()] *)
Definition strip (s : string) : string := rstrip (lstrip s).

(** [len(s)] *)
Definition len (s : string) : Z := Z.of_nat (String.length s).

End PyStr.

(* ================================================================= *)
(** ** Python dictionaries with [str] keys (insertion ordered) *)

Module Dict.
Section Dict.

Context {V : Type}.

Definition dict : Type := list (string * V).

(** [d.get(k)] *)
Fixpoint get (d : dict) (k : string) : option V :=
  match d with
  | [] => None
  | (k', v) :: d' => if String.eqb k' k then Some v else get d' k
  end.

(** [k in d] *)
Definition contains (d : dict) (k : string) : bool :=
  match get d k with Some _ => true | None => false end.

(** [d[k] = v]: an existing key keeps its position, a new key goes last. *)
Fixpoint set (d : dict) (k : string) (v : V) : dict :=
  match d with
  | [] => [(k, v)]
  | (k', v') :: d' =>
      if String.eqb k' k then (k, v) :: d' else (k', v') :: set d' k v
  end.

(** [d] without the entry under [k]. *)
Definition remove (d : dict) (k : string) : dict :=
  filter (fun e => negb (String.eqb (fst e) k)) d.

(** [d.pop(k)]: the value under [k] and the dictionary left; [None] is
    the [KeyError]. *)
Definition pop (d : dict) (k : string) : option (V * dict) :=
  match get d k with
  | Some v => Some (v, remove d k)
  | None => None
  end.

(** [d.items()], [d.keys()], [d.values()] *)
Definition items (d : dict) : list (string * V) := d.
Definition keys (d : dict) : list string := map fst d.
Definition values (d : dict) : list V := map snd d.

(** A dictionary holds each key once. *)
Definition wf (d : dict) : Prop := NoDup (keys d).

End Dict.
Arguments dict : clear implicits.
End Dict.

(* ================================================================= *)
(** ** [list.sort(key=..., reverse=...)] *)

Module PySort.
Section PySort.

Context {A K : Type}.
Variable ltb : K -> K -> bool.
Variable key : A -> K.

(** [x] goes in front of the first element whose key is not below its
    own, so elements with equal keys keep their order (the sort is
    stable, and only [<] is used on keys, as in Python). *)
Fixpoint insert (x : A) (l : list A) : list A :=
  match l with
  | [] => [x]
  | y :: l' => if ltb (key y) (key x) then y :: insert x l' else x :: l
  end.

Definition sort_asc (l : list A) : list A := fold_right insert [] l.

(** [reverse=True] sorts the reversed list and reverses the outcome,
    which keeps stability. *)
Definition sort (reverse : bool) (l : list A) : list A :=
  if reverse then rev (sort_asc (rev l)) else sort_asc l.

End PySort.
End PySort.

(* ================================================================= *)
(** ** Outcomes of a handler *)

Inductive exn : Type :=
| HTTPException (status_code : Z) (detail : string)
| ValidationError
| RequestValidationError
| KeyError.

Inductive result (A : Type) : Type :=
| Return (a : A)
| Raise (e : exn).
Arguments Return {A} a.
Arguments Raise {A} e.

(* ================================================================= *)
(** ** Models *)

(** A JSON body [{name, student_class, marks}] before validation. *)
Record Body : Type := mkBody {
  body_name : string;
  body_student_class : string;
  body_marks : Z
}.

(** [class StudentIn(BaseModel)] *)
Record StudentIn : Type := mkStudentIn {
  name : string;
  student_class : string;
  marks : Z
}.

(** [Field(..., min_length=lo, max_length=hi)] on a [str] field. *)
Definition check_length (lo hi : Z) (v : string) : option string :=
  if (lo <=? PyStr.len v) && (PyStr.len v <=? hi) then Some v else None.

(** [Field(..., ge=lo, le=hi)] on an [int] field. *)
Definition check_range (lo hi : Z) (v : Z) : option Z :=
  if (lo <=? v) && (v <=? hi) then Some v else None.

(** [@validator("name") strip_and_validate_name]; [None] is the
    [ValueError]. *)
Definition strip_and_validate_name (v : string) : option string :=
  let v := PyStr.strip v in
  if PyStr.is_empty v then None else Some v.

(** [@validator("student_class") strip_and_validate_class] *)
Definition strip_and_validate_class (v : string) : option string :=
  let v := PyStr.strip v in
  if PyStr.is_empty v then None else Some v.

Definition bind {A B : Type} (o : option A) (f : A -> option B) : option B :=
  match o with Some a => f a | None => None end.

Notation "x <- o ;; k" := (bind o (fun x => k))
  (at level 61, o at next level, right associativity).

(** Building a [StudentIn]: each field passes its [Field] constraints and
    then the validator declared for it. *)
Definition StudentIn_new (b : Body) : option StudentIn :=
  n0 <- check_length 1 100 (body_name b) ;;
  n <- strip_and_validate_name n0 ;;
  c0 <- check_length 1 20 (body_student_class b) ;;
  c <- strip_and_validate_class c0 ;;
  m <- check_range 0 100 (body_marks b) ;;
  Some (mkStudentIn n c m).

(** What validation asks of a body: the bounds hold of the text as sent,
    something is left of it once trimmed, the marks are in range. *)
Definition valid_body (b : Body) : Prop :=
  1 <= PyStr.len (body_name b) <= 100 /\
  PyStr.is_empty (PyStr.strip (body_name b)) = false /\
  1 <= PyStr.len (body_student_class b) <= 20 /\
  PyStr.is_empty (PyStr.strip (body_student_class b)) = false /\
  0 <= body_marks b <= 100.

(** [student.dict()] *)
Definition StudentIn_dict (s : StudentIn) : Body :=
  mkBody (name s) (student_class s) (marks s).

(** [class StudentOut(StudentIn)]: the inherited fields and [id]. *)
Record StudentOut : Type := mkStudentOut {
  to_StudentIn :> StudentIn;
  id : string
}.

(** [StudentOut(id=i, **d)]: the inherited fields are validated again. *)
Definition StudentOut_new (i : string) (d : Body) : option StudentOut :=
  s <- StudentIn_new d ;;
  Some (mkStudentOut s i).

(** [class StatusResponse(BaseModel)] *)
Record StatusResponse : Type := mkStatusResponse {
  success : bool;
  message : string;
  data : option StudentOut
}.

(** The in-memory storage [students: Dict[str, StudentOut]]. *)
Definition store : Type := Dict.dict StudentOut.

(* ================================================================= *)
(** ** API endpoints *)

(** The value of a sort key: [s.name.lower()] is a [str], [s.marks] an
    [int]. *)
Inductive sort_key : Type :=
| KStr (s : string)
| KInt (n : Z).

(** [a < b] on sort keys.  One key function yields keys of one kind; the
    mixed cases (a [TypeError] in Python) never arise. *)
Definition sort_key_ltb (a b : sort_key) : bool :=
  match a, b with
  | KStr x, KStr y => String.ltb x y
  | KInt x, KInt y => x <? y
  | _, _ => false
  end.

(** The set [{"name", "marks", "student_class"}] of line 111. *)
Definition sort_attrs : list string := ["name"; "marks"; "student_class"].

(** The dictionary [key_map] of lines 113-117. *)
Definition key_map : Dict.dict (StudentOut -> sort_key) :=
  [ ("name", fun s : StudentOut => KStr (PyStr.lower (name s)));
    ("marks", fun s : StudentOut => KInt (marks s));
    ("student_class",
     fun s : StudentOut => KStr (PyStr.lower (student_class s))) ].

(** [x in xs] for strings. *)
Definition str_in (x : string) (xs : list string) : bool :=
  existsb (String.eqb x) xs.

(** The three list comprehensions of lines 101-106. *)
Definition filter_students (filter_class : option string)
    (min_marks max_marks : option Z) (result : list StudentOut)
  : list StudentOut :=
  let result :=
    match filter_class with
    | Some fc =>
        filter (fun stud : StudentOut => String.eqb (student_class stud) fc)
               result
    | None => result
    end in
  let result :=
    match min_marks with
    | Some mn => filter (fun stud : StudentOut => marks stud >=? mn) result
    | None => result
    end in
  match max_marks with
  | Some mx => filter (fun stud : StudentOut => marks stud <=? mx) result
  | None => result
  end.

(** [o == s] for an optional string [o]: [None] equals no string. *)
Definition opt_str_eqb (o : option string) (s : string) : bool :=
  match o with Some o => String.eqb o s | None => false end.

(** [GET /students] *)
Definition get_students (sort_by order filter_class : option string)
    (min_marks max_marks : option Z) (students : store)
  : result (list StudentOut) :=
  let result := Dict.values students in
  let result := filter_students filter_class min_marks max_marks result in
  match sort_by with
  | Some sort_by =>
      let sort_attr := PyStr.lower sort_by in
      if str_in sort_attr sort_attrs then
        let reverse := opt_str_eqb order "desc" in
        match Dict.get key_map sort_attr with
        | Some key => Return (PySort.sort sort_key_ltb key reverse result)
        | None => Raise KeyError
        end
      else Raise (HTTPException 400 "Invalid sort_by field")
  | None => Return result
  end.

(** The test of line 140: [s] holds the pair of [student], ignoring case. *)
Definition same_name_class (s : StudentOut) (student : StudentIn) : bool :=
  String.eqb (PyStr.lower (name s)) (PyStr.lower (name student))
  && String.eqb (PyStr.lower (student_class s))
                (PyStr.lower (student_class student)).

(** [POST /students]; [uuid4] is the string drawn by [str(uuid.uuid4())]. *)
Definition create_student (uuid4 : string) (student : StudentIn)
    (students : store) : result StatusResponse * store :=
  if existsb (fun s => same_name_class s student) (Dict.values students) then
    (Return (mkStatusResponse false
               "A student with this name and class already exists." None),
     students)
  else
    let student_id := uuid4 in
    match StudentOut_new student_id (StudentIn_dict student) with
    | Some student_out =>
        (Return (mkStatusResponse true "Student created successfully."
                   (Some student_out)),
         Dict.set students student_id student_out)
    | None => (Raise ValidationError, students)
    end.

(** [PUT /students/{student_id}] *)
Definition update_student (student_id : string) (updated : StudentIn)
    (students : store) : result StatusResponse * store :=
  if negb (Dict.contains students student_id) then
    (Return (mkStatusResponse false "Student not found." None), students)
  else if existsb (fun e : string * StudentOut =>
                     let (sid, s) := e in
                     negb (String.eqb sid student_id)
                     && same_name_class s updated)
                  (Dict.items students) then
    (Return (mkStatusResponse false
               "A student with this name and class already exists." None),
     students)
  else
    match StudentOut_new student_id (StudentIn_dict updated) with
    | Some updated_student =>
        (Return (mkStatusResponse true "Student updated successfully."
                   (Some updated_student)),
         Dict.set students student_id updated_student)
    | None => (Raise ValidationError, students)
    end.

(** [DELETE /students/{student_id}] *)
Definition delete_student (student_id : string) (students : store)
  : result StatusResponse * store :=
  if negb (Dict.contains students student_id) then
    (Return (mkStatusResponse false "Student not found." None), students)
  else
    match Dict.pop students student_id with
    | Some (removed, students') =>
        (Return (mkStatusResponse true "Student deleted successfully."
                   (Some removed)),
         students')
    | None => (Raise KeyError, students)
    end.

(** [GET /students/{student_id}] *)
Definition get_student_by_id (student_id : string) (students : store)
  : result StatusResponse :=
  match Dict.get students student_id with
  | None => Return (mkStatusResponse false "Student not found." None)
  | Some student =>
      Return (mkStatusResponse true "Student retrieved successfully."
                (Some student))
  end.

(* ================================================================= *)
(** ** Requests that change the store *)

(** A request as the framework hands it over: the body is parsed into a
    [StudentIn] before the handler runs, and a body that fails validation
    never reaches it. *)
Inductive request : Type :=
| POST_students (uuid4 : string) (body : Body)
| PUT_students (student_id : string) (body : Body)
| DELETE_students (student_id : string).

Definition serve (r : request) (students : store)
  : result StatusResponse * store :=
  match r with
  | POST_students uuid4 body =>
      match StudentIn_new body with
      | Some student => create_student uuid4 student students
      | None => (Raise RequestValidationError, students)
      end
  | PUT_students student_id body =>
      match StudentIn_new body with
      | Some updated => update_student student_id updated students
      | None => (Raise RequestValidationError, students)
      end
  | DELETE_students student_id => delete_student student_id students
  end.

(** The stores the process can be in: empty at start, then one request
    after the other. *)
Inductive reachable : store -> Prop :=
| reachable_empty : reachable []
| reachable_serve (r : request) (students : store) :
    reachable students -> reachable (snd (serve r students)).

(** [s] and [student] have the same name and the same class, ignoring
    case. *)
Definition holds_pair (s : StudentOut) (student : StudentIn) : Prop :=
  PyStr.lower (name s) = PyStr.lower (name student) /\
  PyStr.lower (student_class s) = PyStr.lower (student_class student).

(** Some record of the store holds the pair of [student]. *)
Definition pair_present (students : store) (student : StudentIn) : Prop :=
  exists s, In s (Dict.values students) /\ holds_pair s student.

(** Some record stored under another key than [student_id] holds the pair
    of [updated]. *)
Definition pair_present_elsewhere (students : store) (student_id : string)
    (updated : StudentIn) : Prop :=
  exists sid s,
    In (sid, s) (Dict.items students) /\ sid <> student_id /\
    holds_pair s updated.

(** The pair compared by the uniqueness scans. *)
Definition name_class_key (s : StudentOut) : string * string :=
  (PyStr.lower (name s), PyStr.lower (student_class s)).

(** No two records of the store hold the same pair, ignoring case. *)
Definition unique_name_class (students : store) : Prop :=
  forall (i j : nat) (si sj : StudentOut),
    nth_error (Dict.values students) i = Some si ->
    nth_error (Dict.values students) j = Some sj ->
    name_class_key si = name_class_key sj -> i = j.

(** Every record is stored under its own [id]. *)
Definition ids_match_keys (students : store) : Prop :=
  forall (k : string) (s : StudentOut),
    In (k, s) (Dict.items students) -> id s = k.

(** Keys are held once, the pairs of the records are pairwise different
    ignoring case, and every record sits under its own [id]. *)
Definition store_inv (students : store) : Prop :=
  Dict.wf students /\
  NoDup (map name_class_key (Dict.values students)) /\
  ids_match_keys students.

(** The conditions a record must meet to be listed, as the specification
    words them: the class given is its class exactly, its marks are at
    least the minimum given and at most the maximum given. *)
Definition passes_filters (filter_class : option string)
    (min_marks max_marks : option Z) (stud : StudentOut) : Prop :=
  (forall fc, filter_class = Some fc -> student_class stud = fc) /\
  (forall mn, min_marks = Some mn -> marks stud >= mn) /\
  (forall mx, max_marks = Some mx -> marks stud <= mx).

(** The same conditions, decided. *)
Definition passes_filtersb (filter_class : option string)
    (min_marks max_marks : option Z) (stud : StudentOut) : bool :=
  match filter_class with
  | Some fc => String.eqb (student_class stud) fc
  | None => true
  end
  && match min_marks with Some mn => mn <=? marks stud | None => true end
  && match max_marks with Some mx => marks stud <=? mx | None => true end.

(** [x <= y] on Python strings: code points compared from the left, a
    proper prefix first. *)
Definition str_le (x y : string) : Prop := String.leb x y = true.

(** [l] is in order by [key]: each record's key is at most the next one's,
    or at least the next one's when [desc] is set. *)
Definition in_order {K : Type} (le : K -> K -> Prop)
    (key : StudentOut -> K) (desc : bool) (l : list StudentOut) : Prop :=
  Sorted (fun a b => if desc then le (key b) (key a) else le (key a) (key b))
         l.

(* ================================================================= *)
(** ** Notions for the further properties *)

(** Every character of [s] is whitespace; the empty string counts. *)
Fixpoint blank (s : string) : bool :=
  match s with
  | EmptyString => true
  | String c s' => PyStr.isspace c && blank s'
  end.

(** The constraints the model declares, read on its fields: bounded
    lengths, no whitespace left at either end, marks in range. *)
Definition fields_ok (s : StudentIn) : Prop :=
  1 <= PyStr.len (name s) <= 100 /\
  PyStr.strip (name s) = name s /\
  1 <= PyStr.len (student_class s) <= 20 /\
  PyStr.strip (student_class s) = student_class s /\
  0 <= marks s <= 100.

(** Every record of the store would pass validation again, unchanged. *)
Definition all_validated (students : store) : Prop :=
  forall (k : string) (s : StudentOut),
    In (k, s) (Dict.items students) ->
    StudentIn_new (StudentIn_dict s) = Some (to_StudentIn s).

(** The records of [l] whose marks are [m], in the order of [l]. *)
Definition with_marks (m : Z) (l : list StudentOut) : list StudentOut :=
  filter (fun s : StudentOut => marks s =? m) l.

(** The records of [l] whose lowered name is [k], in the order of [l]. *)
Definition with_name_key (k : string) (l : list StudentOut)
  : list StudentOut :=
  filter (fun s : StudentOut => String.eqb (PyStr.lower (name s)) k) l.

(** The records of [l] whose lowered class is [k], in the order of [l]. *)
Definition with_class_key (k : string) (l : list StudentOut)
  : list StudentOut :=
  filter (fun s : StudentOut => String.eqb (PyStr.lower (student_class s)) k)
         l.

(** A fourth student, with the marks of [ann], created after the others. *)
Definition dan : StudentIn := mkStudentIn "dan" "9B" 88.

(** [bob] with other marks, and a body that is too long as sent although
    its trimmed text would fit. *)
Definition bob_55 : StudentIn := mkStudentIn "Bob" "10a" 55.
Definition padded_class_body : Body :=
  mkBody "Ann Lee" " 12345678901234567890 " 50.

(* ================================================================= *)
(** ** Sample data *)

Definition ann_body : Body := mkBody "  Ann Lee " "10A" 88.
Definition ann : StudentIn := mkStudentIn "Ann Lee" "10A" 88.
Definition ann_shouting : StudentIn := mkStudentIn "ANN LEE" "10a" 70.
Definition ann_92 : StudentIn := mkStudentIn "Ann Lee" "10A" 92.
Definition bob : StudentIn := mkStudentIn "Bob" "10a" 70.
Definition carl : StudentIn := mkStudentIn "carl" "9B" 99.

(** The store after [ann], [bob] and [carl] were created, in this order,
    under the identifiers [u1], [u2] and [u3]. *)
Definition sample_store : store :=
  [ ("u1", mkStudentOut ann "u1");
    ("u2", mkStudentOut bob "u2");
    ("u3", mkStudentOut carl "u3") ].

(** [sample_store] after [dan] was created under [u4]. *)
Definition tie_store : store :=
  [ ("u1", mkStudentOut ann "u1");
    ("u2", mkStudentOut bob "u2");
    ("u3", mkStudentOut carl "u3");
    ("u4", mkStudentOut dan "u4") ].

(* ================================================================= *)
(** * Properties *)

(** ** Strings: stripping is idempotent and never lengthens *)

Section StrFacts.

Import PyStr.

Lemma rstrip_idem (s : string) : rstrip (rstrip s) = rstrip s.
Proof.
  induction s as [|c s IH]; simpl; [reflexivity|].
  destruct (isspace c && is_empty (rstrip s)) eqn:E; simpl; [reflexivity|].
  rewrite IH, E. reflexivity.
Qed.

Lemma lstrip_head (s : string) :
  lstrip s = EmptyString \/
  exists c t, lstrip s = String c t /\ isspace c = false.
Proof.
  induction s as [|c s IH]; simpl; [now left|].
  destruct (isspace c) eqn:E; [exact IH|].
  right. exists c, s. now split.
Qed.

Lemma rstrip_nonspace (c : ascii) (t : string) :
  isspace c = false -> rstrip (String c t) = String c (rstrip t).
Proof. intros E. simpl. now rewrite E. Qed.

Lemma lstrip_nonspace (c : ascii) (t : string) :
  isspace c = false -> lstrip (String c t) = String c t.
Proof. intros E. simpl. now rewrite E. Qed.

Lemma strip_idem (s : string) : strip (strip s) = strip s.
Proof.
  unfold strip.
  destruct (lstrip_head s) as [E | (c & t & E & Hc)]; rewrite E.
  - reflexivity.
  - rewrite (rstrip_nonspace c t Hc), (lstrip_nonspace c _ Hc).
    rewrite (rstrip_nonspace c _ Hc), rstrip_idem. reflexivity.
Qed.

Lemma len_lstrip (s : string) : len (lstrip s) <= len s.
Proof.
  unfold len. apply Nat2Z.inj_le.
  induction s as [|c s IH]; simpl; [lia|].
  destruct (isspace c); simpl; lia.
Qed.

Lemma len_rstrip (s : string) : len (rstrip s) <= len s.
Proof.
  unfold len. apply Nat2Z.inj_le.
  induction s as [|c s IH]; simpl; [lia|].
  destruct (isspace c && is_empty (rstrip s)); simpl; lia.
Qed.

Lemma len_strip (s : string) : len (strip s) <= len s.
Proof.
  unfold strip. pose proof (len_rstrip (lstrip s)).
  pose proof (len_lstrip s). lia.
Qed.

Lemma len_nonempty (s : string) : is_empty s = false -> 1 <= len s.
Proof. destruct s; simpl; [discriminate|]. unfold len. simpl. lia. Qed.

End StrFacts.

(** ** Validation: a validated model passes validation again, unchanged *)

Section Validation.

Lemma check_length_Some (lo hi : Z) (v w : string) :
  check_length lo hi v = Some w ->
  w = v /\ lo <= PyStr.len v <= hi.
Proof.
  unfold check_length.
  destruct (lo <=? PyStr.len v) eqn:E1; simpl; [|discriminate].
  destruct (PyStr.len v <=? hi) eqn:E2; [|discriminate].
  intros [= <-]. split; [reflexivity|lia].
Qed.

Lemma check_length_intro (lo hi : Z) (v : string) :
  lo <= PyStr.len v <= hi -> check_length lo hi v = Some v.
Proof.
  intros H. unfold check_length.
  replace (lo <=? PyStr.len v) with true by (symmetry; lia).
  replace (PyStr.len v <=? hi) with true by (symmetry; lia).
  reflexivity.
Qed.

Lemma strip_and_validate_Some (v w : string) :
  strip_and_validate_name v = Some w ->
  w = PyStr.strip v /\ PyStr.is_empty w = false.
Proof.
  unfold strip_and_validate_name.
  destruct (PyStr.is_empty (PyStr.strip v)) eqn:E; [discriminate|].
  intros [= <-]. now split.
Qed.

(** A string that came out of a length check (at least one character)
    and the stripping validator goes through both again, unchanged. *)
Lemma field_revalidates (hi : Z) (raw v0 v : string) :
  check_length 1 hi raw = Some v0 ->
  strip_and_validate_name v0 = Some v ->
  check_length 1 hi v = Some v /\ strip_and_validate_name v = Some v.
Proof.
  intros H1 H2.
  apply check_length_Some in H1. destruct H1 as [-> Hlen].
  apply strip_and_validate_Some in H2. destruct H2 as [-> Hne].
  split.
  - apply check_length_intro.
    pose proof (len_strip raw). pose proof (len_nonempty _ Hne). lia.
  - unfold strip_and_validate_name. rewrite strip_idem, Hne. reflexivity.
Qed.

Lemma check_range_Some (lo hi v w : Z) :
  check_range lo hi v = Some w -> w = v /\ check_range lo hi w = Some w.
Proof.
  unfold check_range.
  destruct ((lo <=? v) && (v <=? hi)) eqn:E; [|discriminate].
  intros [= <-]. rewrite E. now split.
Qed.

Lemma check_range_intro (lo hi v : Z) :
  lo <= v <= hi -> check_range lo hi v = Some v.
Proof.
  intros H. unfold check_range.
  replace (lo <=? v) with true by (symmetry; lia).
  replace (v <=? hi) with true by (symmetry; lia).
  reflexivity.
Qed.

(** A body passes validation exactly when it is a [valid_body], and the
    model built holds its texts trimmed. *)
Lemma StudentIn_new_iff (b : Body) (student : StudentIn) :
  StudentIn_new b = Some student <->
  valid_body b /\
  student = mkStudentIn (PyStr.strip (body_name b))
                        (PyStr.strip (body_student_class b)) (body_marks b).
Proof.
  unfold StudentIn_new, valid_body, bind. split.
  - destruct (check_length 1 100 (body_name b)) as [n0|] eqn:E1;
      [|discriminate].
    destruct (strip_and_validate_name n0) as [n|] eqn:E2; [|discriminate].
    destruct (check_length 1 20 (body_student_class b)) as [c0|] eqn:E3;
      [|discriminate].
    destruct (strip_and_validate_class c0) as [c|] eqn:E4; [|discriminate].
    destruct (check_range 0 100 (body_marks b)) as [m|] eqn:E5;
      [|discriminate].
    intros [= <-].
    apply check_length_Some in E1. destruct E1 as [-> H1].
    apply strip_and_validate_Some in E2. destruct E2 as [-> H2].
    apply check_length_Some in E3. destruct E3 as [-> H3].
    apply strip_and_validate_Some in E4. destruct E4 as [-> H4].
    unfold check_range in E5.
    destruct ((0 <=? body_marks b) && (body_marks b <=? 100)) eqn:E;
      [|discriminate].
    injection E5 as <-. repeat split; try assumption; lia.
  - intros ((H1 & H2 & H3 & H4 & H5) & ->).
    rewrite (check_length_intro _ _ _ H1), (check_length_intro _ _ _ H3).
    unfold strip_and_validate_name, strip_and_validate_class.
    rewrite H2, H4, (check_range_intro _ _ _ H5). reflexivity.
Qed.

Lemma StudentIn_new_dict (b : Body) (student : StudentIn) :
  StudentIn_new b = Some student ->
  StudentIn_new (StudentIn_dict student) = Some student.
Proof.
  unfold StudentIn_new, bind.
  destruct (check_length 1 100 (body_name b)) as [n0|] eqn:E1;
    [|discriminate].
  destruct (strip_and_validate_name n0) as [n|] eqn:E2; [|discriminate].
  destruct (check_length 1 20 (body_student_class b)) as [c0|] eqn:E3;
    [|discriminate].
  destruct (strip_and_validate_class c0) as [c|] eqn:E4; [|discriminate].
  destruct (check_range 0 100 (body_marks b)) as [m|] eqn:E5;
    [|discriminate].
  intros [= <-]. simpl.
  destruct (field_revalidates _ _ _ _ E1 E2) as [-> ->].
  destruct (field_revalidates _ _ _ _ E3 E4) as [-> H4].
  change (strip_and_validate_class c) with (strip_and_validate_name c).
  rewrite H4.
  destruct (check_range_Some _ _ _ _ E5) as [_ ->]. reflexivity.
Qed.

(** [StudentOut(id=i, **student.dict())] succeeds on a validated
    [student] and carries its fields as they are. *)
Lemma StudentOut_new_valid (i : string) (b : Body) (student : StudentIn) :
  StudentIn_new b = Some student ->
  StudentOut_new i (StudentIn_dict student) = Some (mkStudentOut student i).
Proof.
  intros H. unfold StudentOut_new, bind.
  rewrite (StudentIn_new_dict b student H). reflexivity.
Qed.

End Validation.

(** ** Dictionaries *)

Section DictFacts.

Context {V : Type}.
Implicit Types (d : Dict.dict V) (k : string) (v : V).

Lemma get_set_same d k v : Dict.get (Dict.set d k v) k = Some v.
Proof.
  induction d as [|[k' v'] d IH]; simpl.
  - now rewrite String.eqb_refl.
  - destruct (String.eqb k' k) eqn:E; simpl.
    + now rewrite String.eqb_refl.
    + now rewrite E.
Qed.

Lemma get_set_other d k v k0 :
  k0 <> k -> Dict.get (Dict.set d k v) k0 = Dict.get d k0.
Proof.
  intros Hne. apply String.eqb_neq in Hne.
  induction d as [|[k' v'] d IH]; simpl.
  - rewrite String.eqb_sym. now rewrite Hne.
  - destruct (String.eqb k' k) eqn:E; simpl.
    + apply String.eqb_eq in E. subst k'.
      rewrite String.eqb_sym. now rewrite Hne.
    + now rewrite IH.
Qed.

Lemma get_remove_same d k : Dict.get (Dict.remove d k) k = None.
Proof.
  induction d as [|[k' v'] d IH]; simpl; [reflexivity|].
  destruct (String.eqb k' k) eqn:E; simpl; [exact IH|].
  now rewrite E.
Qed.

Lemma get_remove_other d k k0 :
  k0 <> k -> Dict.get (Dict.remove d k) k0 = Dict.get d k0.
Proof.
  intros Hne. induction d as [|[k' v'] d IH]; simpl; [reflexivity|].
  destruct (String.eqb k' k) eqn:E; simpl.
  - apply String.eqb_eq in E. subst k'.
    apply String.eqb_neq in Hne. rewrite String.eqb_sym.
    now rewrite Hne.
  - now rewrite IH.
Qed.

Lemma get_In d k v : Dict.get d k = Some v -> In (k, v) d.
Proof.
  induction d as [|[k' v'] d IH]; simpl; [discriminate|].
  destruct (String.eqb k' k) eqn:E.
  - apply String.eqb_eq in E. intros [= ->]. left. now subst.
  - intros H. right. now apply IH.
Qed.

Lemma get_None_keys d k : Dict.get d k = None -> ~ In k (Dict.keys d).
Proof.
  induction d as [|[k' v'] d IH]; simpl; [tauto|].
  destruct (String.eqb k' k) eqn:E; [discriminate|].
  apply String.eqb_neq in E. intros H [H1|H1]; [easy|now apply IH].
Qed.

Lemma In_set d k v k0 v0 :
  In (k0, v0) (Dict.set d k v) -> (k0 = k /\ v0 = v) \/ In (k0, v0) d.
Proof.
  induction d as [|[k' v'] d IH]; simpl.
  - intros [[= <- <-]|[]]. now left.
  - destruct (String.eqb k' k); simpl.
    + intros [[= <- <-]|H]; [now left|now right; right].
    + intros [H|H]; [now right; left|].
      destruct (IH H) as [H'|H']; [now left|now right; right].
Qed.

Lemma In_keys_set d k v k0 :
  In k0 (Dict.keys (Dict.set d k v)) -> k0 = k \/ In k0 (Dict.keys d).
Proof.
  unfold Dict.keys. intros H. apply in_map_iff in H.
  destruct H as ([k1 v1] & <- & H). simpl.
  destruct (In_set _ _ _ _ _ H) as [[-> _]|H']; [now left|right].
  change k1 with (fst (k1, v1)). now apply in_map.
Qed.

Lemma wf_set d k v : Dict.wf d -> Dict.wf (Dict.set d k v).
Proof.
  unfold Dict.wf.
  induction d as [|[k' v'] d IH]; simpl; intros Hwf.
  - constructor; [tauto|constructor].
  - inversion Hwf as [|? ? Hnotin Hrest]; subst.
    destruct (String.eqb k' k) eqn:E; simpl.
    + apply String.eqb_eq in E. subst k'. now constructor.
    + apply String.eqb_neq in E. constructor; [|now apply IH].
      intros H. destruct (In_keys_set _ _ _ _ H); [now subst|easy].
Qed.

Lemma In_remove d k k0 v0 :
  In (k0, v0) (Dict.remove d k) -> In (k0, v0) d /\ k0 <> k.
Proof.
  unfold Dict.remove. intros H. apply filter_In in H. simpl in H.
  destruct H as [H1 H2]. split; [exact H1|].
  apply negb_true_iff in H2. now apply String.eqb_neq.
Qed.

(** Filtering keeps a list free of repeated images. *)
Lemma NoDup_image_filter {X Y : Type} (img : X -> Y) (keep : X -> bool) :
  forall xs : list X,
    NoDup (map img xs) -> NoDup (map img (filter keep xs)).
Proof.
  intros xs. induction xs as [|x xs IH]; simpl; intros H; [constructor|].
  inversion H as [|? ? Hnotin Hrest]; subst.
  destruct (keep x); simpl; [|now apply IH].
  constructor; [|now apply IH].
  intros Hin. apply Hnotin. apply in_map_iff in Hin.
  destruct Hin as (x' & Hx & Hin). apply filter_In in Hin.
  apply in_map_iff. exists x'. tauto.
Qed.

Lemma wf_remove d k : Dict.wf d -> Dict.wf (Dict.remove d k).
Proof. apply NoDup_image_filter. Qed.

(** Storing [v] under [k] keeps the images under [f] of the values
    pairwise different, when no value under another key has the image
    of [v]. *)
Lemma NoDup_values_set {B : Type} (f : V -> B) d k v :
  Dict.wf d ->
  NoDup (map f (Dict.values d)) ->
  (forall k0 v0, In (k0, v0) d -> k0 <> k -> f v0 <> f v) ->
  NoDup (map f (Dict.values (Dict.set d k v))).
Proof.
  unfold Dict.wf, Dict.keys, Dict.values.
  induction d as [|[k' v'] d IH]; simpl; intros Hwf Hnd Hother.
  - constructor; [tauto|constructor].
  - inversion Hwf as [|? ? Hk Hwf']; subst.
    inversion Hnd as [|? ? Hf Hnd']; subst.
    destruct (String.eqb k' k) eqn:E; simpl.
    + apply String.eqb_eq in E. subst k'.
      constructor; [|exact Hnd'].
      intros Hin. apply in_map_iff in Hin. destruct Hin as (x & Hx & Hin).
      apply in_map_iff in Hin. destruct Hin as ([k1 v1] & <- & Hin).
      simpl in Hx. apply (Hother k1 v1); [now right| |exact Hx].
      intros ->. apply Hk. change k with (fst (k, v1)). now apply in_map.
    + apply String.eqb_neq in E. constructor.
      * intros Hin. apply in_map_iff in Hin.
        destruct Hin as (x & Hx & Hin).
        apply in_map_iff in Hin. destruct Hin as ([k1 v1] & <- & Hin).
        simpl in Hx. destruct (In_set _ _ _ _ _ Hin) as [[-> ->]|Hin'].
        -- apply (Hother k' v'); [now left|exact E|now symmetry].
        -- apply Hf. apply in_map_iff. exists v1. split; [exact Hx|].
           change v1 with (snd (k1, v1)). now apply in_map.
      * apply IH; [exact Hwf'|exact Hnd'|].
        intros k0 v0 Hin. apply Hother. now right.
Qed.

Lemma NoDup_values_remove {B : Type} (f : V -> B) d k :
  NoDup (map f (Dict.values d)) ->
  NoDup (map f (Dict.values (Dict.remove d k))).
Proof.
  unfold Dict.values, Dict.remove. rewrite !map_map.
  apply NoDup_image_filter.
Qed.

End DictFacts.

(** ** The uniqueness scans *)

Section Scans.

Lemma same_name_class_spec (s : StudentOut) (student : StudentIn) :
  same_name_class s student = true <-> holds_pair s student.
Proof.
  unfold same_name_class, holds_pair.
  rewrite andb_true_iff, !String.eqb_eq. reflexivity.
Qed.

Lemma holds_pair_key (s : StudentOut) (student : StudentIn) (i : string) :
  holds_pair s student <->
  name_class_key s = name_class_key (mkStudentOut student i).
Proof.
  unfold holds_pair, name_class_key. simpl. split.
  - intros [-> ->]. reflexivity.
  - intros [= -> ->]. now split.
Qed.

Lemma create_scan_spec (students : store) (student : StudentIn) :
  existsb (fun s => same_name_class s student) (Dict.values students) = true
  <-> pair_present students student.
Proof.
  unfold pair_present. rewrite existsb_exists.
  split; intros (s & Hin & H); exists s; split; try exact Hin;
    now apply same_name_class_spec.
Qed.

Lemma update_scan_spec (students : store) (student_id : string)
    (updated : StudentIn) :
  existsb (fun e : string * StudentOut =>
             let (sid, s) := e in
             negb (String.eqb sid student_id) && same_name_class s updated)
          (Dict.items students) = true
  <-> pair_present_elsewhere students student_id updated.
Proof.
  unfold pair_present_elsewhere. rewrite existsb_exists. split.
  - intros ([sid s] & Hin & H). apply andb_true_iff in H.
    destruct H as [H1 H2]. exists sid, s. split; [exact Hin|]. split.
    + apply negb_true_iff in H1. now apply String.eqb_neq.
    + now apply same_name_class_spec.
  - intros (sid & s & Hin & Hne & H). exists (sid, s).
    split; [exact Hin|]. apply andb_true_iff. split.
    + apply negb_true_iff. now apply String.eqb_neq.
    + now apply same_name_class_spec.
Qed.

Lemma contains_get {V : Type} (d : Dict.dict V) (k : string) :
  Dict.contains d k = true <-> exists v, Dict.get d k = Some v.
Proof.
  unfold Dict.contains. destruct (Dict.get d k) as [v|].
  - split; [now exists v|reflexivity].
  - split; [discriminate|]. now intros (v & [=]).
Qed.

Lemma keys_set_present {V : Type} (d : Dict.dict V) (k : string)
    (v w : V) :
  Dict.get d k = Some w -> Dict.keys (Dict.set d k v) = Dict.keys d.
Proof.
  unfold Dict.keys.
  induction d as [|[k' v'] d IH]; simpl; [discriminate|].
  destruct (String.eqb k' k) eqn:E; simpl.
  - apply String.eqb_eq in E. now subst.
  - intros H. now rewrite IH.
Qed.

End Scans.

(** ** Create, update, delete and lookup *)

Section Handlers.

Implicit Types (students : store) (student updated : StudentIn).

Lemma create_scan_false students student :
  ~ pair_present students student ->
  existsb (fun s => same_name_class s student) (Dict.values students)
  = false.
Proof.
  intros H. apply not_true_is_false. intros E. apply H.
  now apply create_scan_spec.
Qed.

Lemma update_scan_false students student_id updated :
  ~ pair_present_elsewhere students student_id updated ->
  existsb (fun e : string * StudentOut =>
             let (sid, s) := e in
             negb (String.eqb sid student_id) && same_name_class s updated)
          (Dict.items students) = false.
Proof.
  intros H. apply not_true_is_false. intros E. apply H.
  now apply update_scan_spec.
Qed.

(** What [create_student] does with a validated [student] whose pair is
    in no record. *)
Lemma create_student_fresh students uuid4 body student :
  StudentIn_new body = Some student ->
  ~ pair_present students student ->
  create_student uuid4 student students =
  (Return (mkStatusResponse true "Student created successfully."
             (Some (mkStudentOut student uuid4))),
   Dict.set students uuid4 (mkStudentOut student uuid4)).
Proof.
  intros Hv Hfresh. unfold create_student.
  rewrite (create_scan_false _ _ Hfresh).
  rewrite (StudentOut_new_valid uuid4 body student Hv). reflexivity.
Qed.

Lemma create_student_duplicate students uuid4 student :
  pair_present students student ->
  create_student uuid4 student students =
  (Return (mkStatusResponse false
             "A student with this name and class already exists." None),
   students).
Proof.
  intros H. unfold create_student.
  apply create_scan_spec in H. rewrite H. reflexivity.
Qed.

Lemma update_student_absent students student_id updated :
  Dict.get students student_id = None ->
  update_student student_id updated students =
  (Return (mkStatusResponse false "Student not found." None), students).
Proof.
  intros H. unfold update_student, Dict.contains. rewrite H. reflexivity.
Qed.

Lemma update_student_collision students student_id updated old :
  Dict.get students student_id = Some old ->
  pair_present_elsewhere students student_id updated ->
  update_student student_id updated students =
  (Return (mkStatusResponse false
             "A student with this name and class already exists." None),
   students).
Proof.
  intros Hold H. unfold update_student, Dict.contains. rewrite Hold. simpl.
  apply update_scan_spec in H. rewrite H. reflexivity.
Qed.

Lemma update_student_replace students student_id body updated old :
  StudentIn_new body = Some updated ->
  Dict.get students student_id = Some old ->
  ~ pair_present_elsewhere students student_id updated ->
  update_student student_id updated students =
  (Return (mkStatusResponse true "Student updated successfully."
             (Some (mkStudentOut updated student_id))),
   Dict.set students student_id (mkStudentOut updated student_id)).
Proof.
  intros Hv Hold H. unfold update_student, Dict.contains.
  rewrite Hold. simpl. rewrite (update_scan_false _ _ _ H).
  rewrite (StudentOut_new_valid student_id body updated Hv). reflexivity.
Qed.

Lemma delete_student_absent students student_id :
  Dict.get students student_id = None ->
  delete_student student_id students =
  (Return (mkStatusResponse false "Student not found." None), students).
Proof.
  intros H. unfold delete_student, Dict.contains. rewrite H. reflexivity.
Qed.

Lemma delete_student_present students student_id removed :
  Dict.get students student_id = Some removed ->
  delete_student student_id students =
  (Return (mkStatusResponse true "Student deleted successfully."
             (Some removed)),
   Dict.remove students student_id).
Proof.
  intros H. unfold delete_student, Dict.contains, Dict.pop.
  rewrite H. reflexivity.
Qed.

End Handlers.

(** ** What every reachable store satisfies *)

Section Invariant.

Lemma store_inv_empty : store_inv [].
Proof.
  repeat split; try constructor. intros k s [].
Qed.

Lemma store_inv_set (students : store) (k : string) (student : StudentIn) :
  store_inv students ->
  ~ pair_present_elsewhere students k student ->
  store_inv (Dict.set students k (mkStudentOut student k)).
Proof.
  intros (Hwf & Hnd & Hid) Hfresh. repeat split.
  - now apply wf_set.
  - apply NoDup_values_set; [exact Hwf|exact Hnd|].
    intros k0 v0 Hin Hne Heq. apply Hfresh. exists k0, v0.
    split; [exact Hin|]. split; [exact Hne|].
    now apply (holds_pair_key v0 student k).
  - intros k0 s Hin. destruct (In_set _ _ _ _ _ Hin) as [[-> ->]|Hin'].
    + reflexivity.
    + now apply Hid.
Qed.

Lemma store_inv_remove (students : store) (k : string) :
  store_inv students -> store_inv (Dict.remove students k).
Proof.
  intros (Hwf & Hnd & Hid). repeat split.
  - now apply wf_remove.
  - now apply NoDup_values_remove.
  - intros k0 s Hin. apply In_remove in Hin. now apply Hid.
Qed.

Lemma pair_present_elsewhere_weaken (students : store) (k : string)
    (student : StudentIn) :
  pair_present_elsewhere students k student -> pair_present students student.
Proof.
  intros (sid & s & Hin & _ & H). exists s. split; [|exact H].
  unfold Dict.values. change s with (snd (sid, s)). now apply in_map.
Qed.

Lemma store_inv_create (students : store) (uuid4 : string) (body : Body)
    (student : StudentIn) :
  StudentIn_new body = Some student ->
  store_inv students ->
  store_inv (snd (create_student uuid4 student students)).
Proof.
  intros Hv Hinv.
  destruct (existsb (fun s => same_name_class s student)
              (Dict.values students)) eqn:E.
  - apply create_scan_spec in E.
    now rewrite (create_student_duplicate _ uuid4 _ E).
  - assert (Hfresh : ~ pair_present students student).
    { intros H. apply create_scan_spec in H. congruence. }
    rewrite (create_student_fresh _ uuid4 _ _ Hv Hfresh). simpl.
    apply store_inv_set; [exact Hinv|].
    intros H. apply Hfresh. now apply pair_present_elsewhere_weaken in H.
Qed.

Lemma store_inv_update (students : store) (student_id : string)
    (body : Body) (updated : StudentIn) :
  StudentIn_new body = Some updated ->
  store_inv students ->
  store_inv (snd (update_student student_id updated students)).
Proof.
  intros Hv Hinv.
  destruct (Dict.get students student_id) as [old|] eqn:Hold.
  - destruct (existsb (fun e : string * StudentOut =>
                let (sid, s) := e in
                negb (String.eqb sid student_id)
                && same_name_class s updated) (Dict.items students)) eqn:E.
    + apply update_scan_spec in E.
      now rewrite (update_student_collision _ _ _ _ Hold E).
    + assert (Hfresh : ~ pair_present_elsewhere students student_id updated).
      { intros H. apply update_scan_spec in H. congruence. }
      rewrite (update_student_replace _ _ _ _ _ Hv Hold Hfresh). simpl.
      now apply store_inv_set.
  - now rewrite (update_student_absent _ _ _ Hold).
Qed.

Lemma store_inv_delete (students : store) (student_id : string) :
  store_inv students ->
  store_inv (snd (delete_student student_id students)).
Proof.
  intros Hinv.
  destruct (Dict.get students student_id) as [removed|] eqn:Hold.
  - rewrite (delete_student_present _ _ _ Hold). simpl.
    now apply store_inv_remove.
  - now rewrite (delete_student_absent _ _ Hold).
Qed.

Lemma store_inv_serve (r : request) (students : store) :
  store_inv students -> store_inv (snd (serve r students)).
Proof.
  intros Hinv. destruct r as [uuid4 body|student_id body|student_id]; simpl.
  - destruct (StudentIn_new body) as [student|] eqn:Hv; [|exact Hinv].
    now apply (store_inv_create _ _ body).
  - destruct (StudentIn_new body) as [updated|] eqn:Hv; [|exact Hinv].
    now apply (store_inv_update _ _ body).
  - now apply store_inv_delete.
Qed.

Lemma reachable_store_inv (students : store) :
  reachable students -> store_inv students.
Proof.
  induction 1 as [|r students _ IH].
  - exact store_inv_empty.
  - now apply store_inv_serve.
Qed.

Lemma NoDup_map_nth_error {A B : Type} (f : A -> B) (l : list A)
    (i j : nat) (a b : A) :
  NoDup (map f l) ->
  nth_error l i = Some a -> nth_error l j = Some b -> f a = f b -> i = j.
Proof.
  intros Hnd Hi Hj Heq.
  apply (proj1 (NoDup_nth_error (map f l)) Hnd).
  - rewrite length_map. apply nth_error_Some. congruence.
  - rewrite !nth_error_map, Hi, Hj. simpl. now rewrite Heq.
Qed.

Lemma sample_store_reachable : reachable sample_store.
Proof.
  change sample_store with
    (snd (serve (POST_students "u3" (StudentIn_dict carl))
       (snd (serve (POST_students "u2" (StudentIn_dict bob))
          (snd (serve (POST_students "u1" ann_body) [])))))).
  repeat apply reachable_serve. apply reachable_empty.
Defined.

End Invariant.

(** ** Sorting *)

Section SortFacts.

Context {A K : Type}.
Variable ltb : K -> K -> bool.
Variable key : A -> K.
Hypothesis ltb_asym : forall x y, ltb x y = true -> ltb y x = false.

(** [a] may stand right before [b]. *)
Let le (a b : A) : Prop := ltb (key b) (key a) = false.

Lemma insert_perm (x : A) (l : list A) :
  Permutation (x :: l) (PySort.insert ltb key x l).
Proof.
  induction l as [|y l IH]; simpl; [reflexivity|].
  destruct (ltb (key y) (key x)); [|reflexivity].
  rewrite perm_swap. now apply perm_skip.
Qed.

Lemma sort_asc_perm (l : list A) :
  Permutation l (PySort.sort_asc ltb key l).
Proof.
  induction l as [|x l IH]; simpl; [reflexivity|].
  rewrite <- insert_perm. now apply perm_skip.
Qed.

Lemma sort_perm (reverse : bool) (l : list A) :
  Permutation l (PySort.sort ltb key reverse l).
Proof.
  unfold PySort.sort. destruct reverse; [|apply sort_asc_perm].
  rewrite <- Permutation_rev, <- sort_asc_perm. apply Permutation_rev.
Qed.

Lemma insert_sorted (x : A) (l : list A) :
  Sorted le l -> Sorted le (PySort.insert ltb key x l).
Proof.
  induction l as [|y l IH]; simpl; intros Hs.
  - repeat constructor.
  - destruct (ltb (key y) (key x)) eqn:E.
    + apply Sorted_inv in Hs. destruct Hs as [Hs Hhd].
      constructor; [now apply IH|].
      destruct l as [|z l]; simpl.
      * constructor. now apply ltb_asym.
      * destruct (ltb (key z) (key x)).
        -- constructor. now inversion Hhd.
        -- constructor. now apply ltb_asym.
    + constructor; [exact Hs|]. constructor. exact E.
Qed.

Lemma sort_asc_sorted (l : list A) : Sorted le (PySort.sort_asc ltb key l).
Proof.
  induction l as [|x l IH]; simpl; [constructor|now apply insert_sorted].
Qed.

Lemma Sorted_snoc (R : A -> A -> Prop) (l : list A) (a : A) :
  Sorted R l ->
  (forall l' y, l = (l' ++ [y])%list -> R y a) ->
  Sorted R (l ++ [a])%list.
Proof.
  induction 1 as [|b l Hs IH Hhd]; simpl; intros Hlast.
  - repeat constructor.
  - constructor.
    + apply IH. intros l' y ->. now apply (Hlast (b :: l') y).
    + destruct l as [|c l]; simpl.
      * constructor. now apply (Hlast [] b).
      * constructor. now inversion Hhd.
Qed.

Lemma Sorted_rev (R : A -> A -> Prop) (l : list A) :
  Sorted R l -> Sorted (fun a b => R b a) (rev l).
Proof.
  induction l as [|a l IH]; simpl; intros Hs; [constructor|].
  apply Sorted_inv in Hs. destruct Hs as [Hs Hhd].
  apply Sorted_snoc; [now apply IH|].
  intros l' y E. apply (f_equal (@rev A)) in E.
  rewrite rev_involutive, rev_unit in E. subst l. now inversion Hhd.
Qed.

Lemma Sorted_impl (R R' : A -> A -> Prop) (l : list A) :
  (forall a b, R a b -> R' a b) -> Sorted R l -> Sorted R' l.
Proof.
  intros HR. induction 1 as [|a l Hs IH Hhd]; constructor; [exact IH|].
  destruct Hhd; constructor. now apply HR.
Qed.

Lemma sort_sorted (reverse : bool) (l : list A) :
  Sorted (fun a b => if reverse then le b a else le a b)
         (PySort.sort ltb key reverse l).
Proof.
  unfold PySort.sort. destruct reverse.
  - apply Sorted_rev. apply sort_asc_sorted.
  - apply sort_asc_sorted.
Qed.

End SortFacts.

Section SortKeys.

Lemma sort_key_ltb_asym (x y : sort_key) :
  sort_key_ltb x y = true -> sort_key_ltb y x = false.
Proof.
  destruct x as [x|x], y as [y|y]; simpl; try discriminate.
  - unfold String.ltb. rewrite (String.compare_antisym y x).
    destruct (String.compare x y); simpl; congruence.
  - lia.
Qed.

Lemma str_ltb_false_le (x y : string) :
  String.ltb y x = false -> str_le x y.
Proof.
  unfold str_le, String.ltb, String.leb.
  rewrite (String.compare_antisym x y).
  destruct (String.compare y x); simpl; congruence.
Qed.

(** The result of sorting by a key of [key_map] is in order by that key. *)
Lemma sort_in_order_str (f : StudentOut -> string) (reverse : bool)
    (l : list StudentOut) :
  in_order str_le f reverse
    (PySort.sort sort_key_ltb (fun s => KStr (f s)) reverse l).
Proof.
  unfold in_order.
  eapply Sorted_impl;
    [|apply (sort_sorted sort_key_ltb _ sort_key_ltb_asym reverse l)].
  intros a b. simpl. destruct reverse; apply str_ltb_false_le.
Qed.

Lemma sort_in_order_int (f : StudentOut -> Z) (reverse : bool)
    (l : list StudentOut) :
  in_order Z.le f reverse
    (PySort.sort sort_key_ltb (fun s => KInt (f s)) reverse l).
Proof.
  unfold in_order.
  eapply Sorted_impl;
    [|apply (sort_sorted sort_key_ltb _ sort_key_ltb_asym reverse l)].
  intros a b. simpl. destruct reverse; lia.
Qed.

End SortKeys.

(** ** Listing *)

Section Listing.

Lemma filter_andb {A : Type} (p q : A -> bool) (l : list A) :
  filter q (filter p l) = filter (fun a => p a && q a) l.
Proof.
  induction l as [|a l IH]; simpl; [reflexivity|].
  destruct (p a); simpl; [|exact IH].
  destruct (q a); now rewrite IH.
Qed.

Lemma filter_true {A : Type} (l : list A) : filter (fun _ => true) l = l.
Proof. induction l as [|a l IH]; simpl; [reflexivity|now rewrite IH]. Qed.

(** The three comprehensions in a row keep what one pass with the three
    conditions together keeps. *)
Lemma filter_students_spec (fc : option string) (mn mx : option Z)
    (l : list StudentOut) :
  filter_students fc mn mx l = filter (passes_filtersb fc mn mx) l.
Proof.
  unfold filter_students.
  destruct fc as [fc|], mn as [mn|], mx as [mx|];
    rewrite ?filter_andb;
    try (apply filter_ext; intros a; unfold passes_filtersb;
         rewrite ?Z.geb_leb, ?andb_assoc, ?andb_true_r; reflexivity).
  symmetry. apply filter_true.
Qed.

Lemma passes_filtersb_spec (fc : option string) (mn mx : option Z)
    (s : StudentOut) :
  passes_filtersb fc mn mx s = true <-> passes_filters fc mn mx s.
Proof.
  unfold passes_filtersb, passes_filters.
  rewrite !andb_true_iff. split.
  - intros [[H1 H2] H3]. repeat split.
    + intros c ->. now apply String.eqb_eq.
    + intros n ->. lia.
    + intros n ->. lia.
  - intros (H1 & H2 & H3). repeat split.
    + destruct fc as [c|]; [|reflexivity].
      apply String.eqb_eq. now apply H1.
    + destruct mn as [n|]; [|reflexivity].
      specialize (H2 n eq_refl). lia.
    + destruct mx as [n|]; [|reflexivity].
      specialize (H3 n eq_refl). lia.
Qed.

Lemma get_students_Return_perm (students : store)
    (sort_by order fc : option string) (mn mx : option Z)
    (result : list StudentOut) :
  get_students sort_by order fc mn mx students = Return result ->
  Permutation (filter_students fc mn mx (Dict.values students)) result.
Proof.
  unfold get_students. destruct sort_by as [sort_by|].
  - destruct (str_in (PyStr.lower sort_by) sort_attrs); [|discriminate].
    destruct (Dict.get key_map (PyStr.lower sort_by)) as [key|];
      [|discriminate].
    intros [= <-]. apply sort_perm.
  - intros [= <-]. reflexivity.
Qed.

Lemma sort_attrs_cases (sort_attr : string) :
  str_in sort_attr sort_attrs = true ->
  sort_attr = "name" \/ sort_attr = "marks" \/ sort_attr = "student_class".
Proof.
  unfold str_in, sort_attrs. simpl. rewrite !orb_true_iff, !String.eqb_eq.
  intuition congruence.
Qed.

Lemma get_students_unknown_sort_by (students : store) (sort_by : string)
    (order fc : option string) (mn mx : option Z) :
  str_in (PyStr.lower sort_by) sort_attrs = false ->
  get_students (Some sort_by) order fc mn mx students =
  Raise (HTTPException 400 "Invalid sort_by field").
Proof. intros H. unfold get_students. now rewrite H. Qed.

End Listing.

(** ** The scenario of the specification, run on the handlers *)

Section Scenario.

Let s1 : store := [("u1", mkStudentOut ann "u1")].
Let s2 : store := [("u1", mkStudentOut ann_92 "u1")].

Example scenario_ann_lee :
  serve (POST_students "u1" ann_body) [] =
  (Return (mkStatusResponse true "Student created successfully."
             (Some (mkStudentOut ann "u1"))), s1) /\
  serve (POST_students "u2" (StudentIn_dict ann_shouting)) s1 =
  (Return (mkStatusResponse false
             "A student with this name and class already exists." None), s1)
  /\
  get_students None (Some "asc") (Some "10A") None None s1 =
  Return [mkStudentOut ann "u1"] /\
  serve (PUT_students "u1" (StudentIn_dict ann_92)) s1 =
  (Return (mkStatusResponse true "Student updated successfully."
             (Some (mkStudentOut ann_92 "u1"))), s2) /\
  serve (DELETE_students "u1") s2 =
  (Return (mkStatusResponse true "Student deleted successfully."
             (Some (mkStudentOut ann_92 "u1"))), []) /\
  get_student_by_id "u1" [] =
  Return (mkStatusResponse false "Student not found." None).
Proof. repeat (split; [reflexivity|]). reflexivity. Qed.

(** Validation runs the length bounds on the text as sent and trims
    afterwards; blank text and marks out of range are refused. *)
Example validation_samples :
  StudentIn_new ann_body = Some ann /\
  StudentIn_new (mkBody "   " "10A" 88) = None /\
  StudentIn_new (mkBody "Ann Lee" "" 88) = None /\
  StudentIn_new (mkBody "Ann Lee" "10A" 101) = None /\
  StudentIn_new (mkBody "Ann Lee" "10A" (-1)) = None /\
  StudentIn_new (mkBody "Ann Lee" " 123456789012345678901 " 50) = None.
Proof. repeat (split; [reflexivity|]). reflexivity. Qed.

(** Sorting the sample store: by marks downwards, by lowered name, and a
    sort field outside the recognised ones. *)
Example listing_samples :
  get_students (Some "marks") (Some "desc") None None None sample_store =
  Return [mkStudentOut carl "u3"; mkStudentOut ann "u1";
          mkStudentOut bob "u2"] /\
  get_students (Some "NAME") None None None None sample_store =
  Return [mkStudentOut ann "u1"; mkStudentOut bob "u2";
          mkStudentOut carl "u3"] /\
  get_students (Some "invalidfield") None None None None sample_store =
  Raise (HTTPException 400 "Invalid sort_by field").
Proof. repeat (split; [reflexivity|]). reflexivity. Qed.

End Scenario.

(* ================================================================= *)
(** * The claims of the specification *)

(** C1 (refuted on the code, at [sort_by=class]).  The claim: a [sort_by]
    equal, ignoring case, to [name], [marks] or [class] sorts and succeeds,
    and any other [sort_by] is a client error.  The handler tests the
    lowered value against [{"name", "marks", "student_class"}]: whatever
    the store and the other parameters, [sort_by=class] raises the 400
    error "Invalid sort_by field", and [sort_by=student_class], which is
    none of the three documented values, returns a list. *)
Theorem get_students_sort_by_class_rejected
    (students : store) (order fc : option string) (mn mx : option Z) :
  get_students (Some "class") order fc mn mx students
  = Raise (HTTPException 400 "Invalid sort_by field") /\
  get_students (Some "CLASS") order fc mn mx students
  = Raise (HTTPException 400 "Invalid sort_by field") /\
  exists result,
    get_students (Some "student_class") order fc mn mx students
    = Return result.
Proof.
  split; [reflexivity|]. split; [reflexivity|].
  eexists. reflexivity.
Qed.

(** C2.  In every store reachable from the empty store by a sequence of
    create, update and delete requests, no two records hold the same
    (name, class) pair under case-insensitive comparison. *)
Theorem reachable_unique_name_class (students : store) :
  reachable students -> unique_name_class students.
Proof.
  intros Hr. destruct (reachable_store_inv students Hr) as (_ & Hnd & _).
  intros i j si sj Hi Hj Heq.
  exact (NoDup_map_nth_error name_class_key _ i j si sj Hnd Hi Hj Heq).
Qed.

Lemma reachable_unique_name_class_witness :
  reachable sample_store /\ unique_name_class sample_store.
Proof.
  split; [exact sample_store_reachable|].
  exact (reachable_unique_name_class sample_store sample_store_reachable).
Defined.

(** C3.  For a validated input whose (name, class) pair is in no record,
    ignoring case, [create_student] returns a success outcome carrying the
    created record, which is the input fields plus the generated id, and
    [get_student_by_id] on that id then returns this very record. *)
Theorem create_student_then_get_by_id
    (students : store) (uuid4 : string) (body : Body) (student : StudentIn) :
  StudentIn_new body = Some student ->
  (forall s, In s (Dict.values students) -> ~ holds_pair s student) ->
  exists students',
    create_student uuid4 student students =
    (Return (mkStatusResponse true "Student created successfully."
               (Some (mkStudentOut student uuid4))),
     students') /\
    get_student_by_id uuid4 students' =
    Return (mkStatusResponse true "Student retrieved successfully."
              (Some (mkStudentOut student uuid4))).
Proof.
  intros Hv Hfresh.
  assert (Hnp : ~ pair_present students student).
  { intros (s & Hin & H). exact (Hfresh s Hin H). }
  exists (Dict.set students uuid4 (mkStudentOut student uuid4)). split.
  - exact (create_student_fresh students uuid4 body student Hv Hnp).
  - unfold get_student_by_id. rewrite get_set_same. reflexivity.
Qed.

Lemma create_student_then_get_by_id_witness :
  StudentIn_new ann_body = Some ann /\
  (forall s, In s (Dict.values [("u2", mkStudentOut bob "u2")]) ->
             ~ holds_pair s ann) /\
  exists students',
    create_student "u1" ann [("u2", mkStudentOut bob "u2")] =
    (Return (mkStatusResponse true "Student created successfully."
               (Some (mkStudentOut ann "u1"))),
     students') /\
    get_student_by_id "u1" students' =
    Return (mkStatusResponse true "Student retrieved successfully."
              (Some (mkStudentOut ann "u1"))).
Proof.
  assert (Hfresh : forall s, In s (Dict.values [("u2", mkStudentOut bob "u2")])
                             -> ~ holds_pair s ann).
  { intros s [<-|[]] [H _]. discriminate H. }
  split; [reflexivity|]. split; [exact Hfresh|].
  exact (create_student_then_get_by_id
           [("u2", mkStudentOut bob "u2")] "u1" ann_body ann eq_refl Hfresh).
Defined.

(** C4.  For every store and every input whose (name, class) pair is held
    by an existing record, ignoring case, [create_student] returns an
    outcome with [success = false] and an explanatory message, and the
    store it leaves is the store it found: nothing is inserted, size and
    contents are unchanged.  (It holds of every [StudentIn], validated or
    not.) *)
Theorem create_student_duplicate_rejected
    (students : store) (uuid4 : string) (student : StudentIn) :
  pair_present students student ->
  create_student uuid4 student students =
  (Return (mkStatusResponse false
             "A student with this name and class already exists." None),
   students).
Proof. apply create_student_duplicate. Qed.

Lemma create_student_duplicate_rejected_witness :
  pair_present sample_store ann_shouting /\
  create_student "u4" ann_shouting sample_store =
  (Return (mkStatusResponse false
             "A student with this name and class already exists." None),
   sample_store).
Proof.
  assert (H : pair_present sample_store ann_shouting).
  { exists (mkStudentOut ann "u1"). split; [left; reflexivity|].
    split; reflexivity. }
  split; [exact H|].
  exact (create_student_duplicate_rejected sample_store "u4" ann_shouting H).
Defined.

(** C5.  For every store and every id present in it, [update_student] with
    validated fields: when no record under another key holds the new
    (name, class) pair, ignoring case, the record at the id is replaced as
    a whole by the new field values with the same id, keys and all other
    records stay as they were, and the outcome is a success carrying the
    updated record; when a record under another key holds the pair, the
    outcome is a failure and the store is not changed.  The record being
    updated is left out of the scan. *)
Theorem update_student_present
    (students : store) (student_id : string) (body : Body)
    (updated : StudentIn) (old : StudentOut) :
  StudentIn_new body = Some updated ->
  Dict.get students student_id = Some old ->
  (~ pair_present_elsewhere students student_id updated ->
   exists students',
     update_student student_id updated students =
     (Return (mkStatusResponse true "Student updated successfully."
                (Some (mkStudentOut updated student_id))),
      students') /\
     Dict.get students' student_id = Some (mkStudentOut updated student_id) /\
     Dict.keys students' = Dict.keys students /\
     forall k, k <> student_id -> Dict.get students' k = Dict.get students k)
  /\
  (pair_present_elsewhere students student_id updated ->
   update_student student_id updated students =
   (Return (mkStatusResponse false
              "A student with this name and class already exists." None),
    students)).
Proof.
  intros Hv Hold. split.
  - intros Hfresh.
    exists (Dict.set students student_id (mkStudentOut updated student_id)).
    split; [now apply (update_student_replace _ _ body _ old)|].
    split; [apply get_set_same|].
    split; [now apply (keys_set_present _ _ _ old)|].
    intros k Hk. now apply get_set_other.
  - now apply (update_student_collision _ _ _ old).
Qed.

Lemma update_student_present_witness :
  (exists students',
     update_student "u1" ann_92 sample_store =
     (Return (mkStatusResponse true "Student updated successfully."
                (Some (mkStudentOut ann_92 "u1"))),
      students') /\
     Dict.get students' "u1" = Some (mkStudentOut ann_92 "u1") /\
     Dict.keys students' = Dict.keys sample_store /\
     forall k, k <> "u1" -> Dict.get students' k = Dict.get sample_store k)
  /\
  update_student "u1" bob sample_store =
  (Return (mkStatusResponse false
             "A student with this name and class already exists." None),
   sample_store).
Proof.
  split.
  - apply (proj1 (update_student_present sample_store "u1"
                    (StudentIn_dict ann_92) ann_92 (mkStudentOut ann "u1")
                    eq_refl eq_refl)).
    intros (sid & s & Hin & Hne & [H _]). simpl in Hin.
    destruct Hin as [E|[E|[E|[]]]]; inversion E; subst.
    + now apply Hne.
    + discriminate H.
    + discriminate H.
  - apply (proj2 (update_student_present sample_store "u1"
                    (StudentIn_dict bob) bob (mkStudentOut ann "u1")
                    eq_refl eq_refl)).
    exists "u2", (mkStudentOut bob "u2").
    split; [right; left; reflexivity|].
    split; [discriminate|]. split; reflexivity.
Defined.

(** C6.  For every store and every id absent from it, [update_student]
    returns an outcome with [success = false] whose message says the
    student was not found, and the store is unchanged.  (It holds of every
    [StudentIn], validated or not.) *)
Theorem update_student_not_found
    (students : store) (student_id : string) (updated : StudentIn) :
  Dict.get students student_id = None ->
  update_student student_id updated students =
  (Return (mkStatusResponse false "Student not found." None), students).
Proof. apply update_student_absent. Qed.

Lemma update_student_not_found_witness :
  Dict.get sample_store "u9" = None /\
  update_student "u9" ann_92 sample_store =
  (Return (mkStatusResponse false "Student not found." None), sample_store).
Proof.
  split; [reflexivity|].
  exact (update_student_not_found sample_store "u9" ann_92 eq_refl).
Defined.

(** C7.  For every store: [delete_student] on an absent id returns the
    failure outcome "Student not found." and leaves the store as it is; on
    a present id it returns a success outcome carrying the record that was
    stored there, the store it leaves has no entry under the id and every
    other entry as before, and [get_student_by_id] on the id then returns
    the failure outcome "Student not found.". *)
Theorem delete_student_then_get_by_id
    (students : store) (student_id : string) :
  (Dict.get students student_id = None ->
   delete_student student_id students =
   (Return (mkStatusResponse false "Student not found." None), students))
  /\
  (forall removed, Dict.get students student_id = Some removed ->
   exists students',
     delete_student student_id students =
     (Return (mkStatusResponse true "Student deleted successfully."
                (Some removed)),
      students') /\
     Dict.get students' student_id = None /\
     (forall k, k <> student_id -> Dict.get students' k = Dict.get students k)
     /\
     get_student_by_id student_id students' =
     Return (mkStatusResponse false "Student not found." None)).
Proof.
  split; [apply delete_student_absent|].
  intros removed Hold. exists (Dict.remove students student_id).
  split; [now apply delete_student_present|].
  split; [apply get_remove_same|].
  split; [intros k Hk; now apply get_remove_other|].
  unfold get_student_by_id. now rewrite get_remove_same.
Qed.

Lemma delete_student_then_get_by_id_witness :
  exists students',
    delete_student "u2" sample_store =
    (Return (mkStatusResponse true "Student deleted successfully."
               (Some (mkStudentOut bob "u2"))),
     students') /\
    Dict.get students' "u2" = None /\
    (forall k, k <> "u2" -> Dict.get students' k = Dict.get sample_store k) /\
    get_student_by_id "u2" students' =
    Return (mkStatusResponse false "Student not found." None).
Proof.
  exact (proj2 (delete_student_then_get_by_id sample_store "u2")
           (mkStudentOut bob "u2") eq_refl).
Defined.

(** C8.  For every store, [get_students] applies the optional filters
    together, starting from all records: the records kept are exactly those
    whose class is [filter_class] (compared exactly, case-sensitively) when
    it is given, whose marks are at least [min_marks] when it is given and
    at most [max_marks] when it is given.  Without [sort_by] the result is
    these records in store order; with any [sort_by], a returned result is
    a rearrangement of them; and it is the empty list when no record
    passes. *)
Theorem get_students_filters
    (students : store) (sort_by order fc : option string) (mn mx : option Z) :
  (forall s,
     In s (filter (passes_filtersb fc mn mx) (Dict.values students)) <->
     In s (Dict.values students) /\ passes_filters fc mn mx s) /\
  get_students None order fc mn mx students =
  Return (filter (passes_filtersb fc mn mx) (Dict.values students)) /\
  (forall result,
     get_students sort_by order fc mn mx students = Return result ->
     Permutation (filter (passes_filtersb fc mn mx) (Dict.values students))
                 result) /\
  ((forall s, In s (Dict.values students) -> ~ passes_filters fc mn mx s) ->
   get_students None order fc mn mx students = Return []).
Proof.
  split; [|split; [|split]].
  - intros s. rewrite filter_In, passes_filtersb_spec. reflexivity.
  - unfold get_students. now rewrite filter_students_spec.
  - intros result H. rewrite <- filter_students_spec.
    now apply (get_students_Return_perm students sort_by order).
  - intros Hnone. unfold get_students. rewrite filter_students_spec.
    f_equal. induction (Dict.values students) as [|a l IH]; [reflexivity|].
    simpl. destruct (passes_filtersb fc mn mx a) eqn:E.
    + exfalso. apply (Hnone a); [now left|]. now apply passes_filtersb_spec.
    + apply IH. intros s Hin. apply Hnone. now right.
Qed.

Lemma get_students_filters_witness :
  get_students None None (Some "10a") (Some 50) (Some 80) sample_store =
  Return [mkStudentOut bob "u2"] /\
  get_students None None (Some "10B") None None sample_store = Return [].
Proof.
  split.
  - exact (proj1 (proj2 (get_students_filters sample_store None None
                           (Some "10a") (Some 50) (Some 80)))).
  - apply (proj2 (proj2 (proj2 (get_students_filters sample_store None None
                                   (Some "10B") None None)))).
    intros s Hin (H & _). specialize (H "10B" eq_refl). simpl in Hin.
    destruct Hin as [<-|[<-|[<-|[]]]]; discriminate H.
Defined.

(** C9.  For every store, [get_students] with a recognised [sort_by]
    returns the filtered records rearranged in order of the chosen key:
    with [sort_by=marks] and [order=desc] the marks never increase along
    the result; when [order] is not "desc" the keys never decrease; the
    keys of name and class are the lowered strings (so they are compared
    ignoring case), the key of marks is the number.  Nothing is said of
    the order among records with equal keys. *)
Theorem get_students_sorted
    (students : store) (sort_by : string) (order fc : option string)
    (mn mx : option Z) :
  str_in (PyStr.lower sort_by) sort_attrs = true ->
  exists result,
    get_students (Some sort_by) order fc mn mx students = Return result /\
    Permutation (filter_students fc mn mx (Dict.values students)) result /\
    (PyStr.lower sort_by = "marks" ->
     in_order Z.le (fun s => marks s) (opt_str_eqb order "desc") result) /\
    (PyStr.lower sort_by = "name" ->
     in_order str_le (fun s => PyStr.lower (name s))
              (opt_str_eqb order "desc") result) /\
    (PyStr.lower sort_by = "student_class" ->
     in_order str_le (fun s => PyStr.lower (student_class s))
              (opt_str_eqb order "desc") result).
Proof.
  intros Hin. unfold get_students. rewrite Hin.
  destruct (sort_attrs_cases _ Hin) as [E|[E|E]]; rewrite E; simpl;
    eexists; (split; [reflexivity|]); (split; [apply sort_perm|]);
    repeat split; intros E'; try discriminate E'.
  - apply sort_in_order_str.
  - apply sort_in_order_int.
  - apply sort_in_order_str.
Qed.

Lemma get_students_sorted_witness :
  str_in (PyStr.lower "Marks") sort_attrs = true /\
  exists result,
    get_students (Some "Marks") (Some "desc") None None None sample_store
    = Return result /\
    Permutation (filter_students None None None (Dict.values sample_store))
                result /\
    (PyStr.lower "Marks" = "marks" ->
     in_order Z.le (fun s => marks s) (opt_str_eqb (Some "desc") "desc")
              result) /\
    (PyStr.lower "Marks" = "name" ->
     in_order str_le (fun s => PyStr.lower (name s))
              (opt_str_eqb (Some "desc") "desc") result) /\
    (PyStr.lower "Marks" = "student_class" ->
     in_order str_le (fun s => PyStr.lower (student_class s))
              (opt_str_eqb (Some "desc") "desc") result).
Proof.
  split; [reflexivity|].
  exact (get_students_sorted sample_store "Marks" (Some "desc")
           None None None eq_refl).
Defined.

(** C10.  In every store reachable from the empty store by a sequence of
    create, update and delete requests, every record carries an [id] equal
    to the key it is stored under, and [update_student] never changes the
    [id] of the record at the given key: whatever it is called with, the
    record found there afterwards has the [id] of the record found there
    before. *)
Theorem reachable_ids_match_keys (students : store) :
  reachable students ->
  ids_match_keys students /\
  forall student_id updated old,
    Dict.get students student_id = Some old ->
    exists new,
      Dict.get (snd (update_student student_id updated students)) student_id
      = Some new /\
      id new = id old.
Proof.
  intros Hr. destruct (reachable_store_inv students Hr) as (_ & _ & Hid).
  split; [exact Hid|].
  intros student_id updated old Hold.
  assert (Hidold : id old = student_id) by (apply Hid; now apply get_In).
  unfold update_student, Dict.contains. rewrite Hold. simpl.
  destruct (existsb _ (Dict.items students)); simpl.
  - now exists old.
  - destruct (StudentOut_new student_id (StudentIn_dict updated))
      as [updated_student|] eqn:E; simpl.
    + exists updated_student. split; [apply get_set_same|].
      unfold StudentOut_new, bind in E.
      destruct (StudentIn_new (StudentIn_dict updated)); [|discriminate].
      injection E as <-. simpl. now rewrite Hidold.
    + now exists old.
Qed.

Lemma reachable_ids_match_keys_witness :
  reachable sample_store /\
  ids_match_keys sample_store /\
  forall student_id updated old,
    Dict.get sample_store student_id = Some old ->
    exists new,
      Dict.get (snd (update_student student_id updated sample_store))
               student_id = Some new /\
      id new = id old.
Proof.
  split; [exact sample_store_reachable|].
  exact (reachable_ids_match_keys sample_store sample_store_reachable).
Defined.

(* ================================================================= *)
(** * Further properties of the models and the handlers *)

(** ** Validators *)

Section Validators.

Import PyStr.

Lemma is_empty_lstrip (s : string) : is_empty (lstrip s) = blank s.
Proof.
  induction s as [|c s IH]; simpl; [reflexivity|].
  destruct (isspace c); simpl; [exact IH|reflexivity].
Qed.

Lemma is_empty_strip (s : string) : is_empty (strip s) = blank s.
Proof.
  rewrite <- is_empty_lstrip. unfold strip.
  destruct (lstrip_head s) as [E | (c & t & E & Hc)]; rewrite E.
  - reflexivity.
  - now rewrite (rstrip_nonspace c t Hc).
Qed.

Lemma strip_ends (s : string) :
  lstrip (strip s) = strip s /\ rstrip (strip s) = strip s.
Proof.
  unfold strip. split; [|apply rstrip_idem].
  destruct (lstrip_head s) as [E | (c & t & E & Hc)]; rewrite E.
  - reflexivity.
  - rewrite (rstrip_nonspace c t Hc). now apply lstrip_nonspace.
Qed.

End Validators.

(** X1.  [StudentIn] accepts a body exactly when the name as sent has 1 to
    100 characters and is not all whitespace, the class as sent has 1 to
    20 characters and is not all whitespace, and the marks are in 0..100.
    The bounds are taken before trimming; the model built holds both
    texts trimmed.  Any other body is refused. *)
Theorem StudentIn_new_decides (b : Body) :
  (valid_body b ->
   StudentIn_new b =
   Some (mkStudentIn (PyStr.strip (body_name b))
                     (PyStr.strip (body_student_class b)) (body_marks b)))
  /\
  (~ valid_body b -> StudentIn_new b = None) /\
  (valid_body b <->
   (1 <= PyStr.len (body_name b) <= 100 /\ blank (body_name b) = false) /\
   (1 <= PyStr.len (body_student_class b) <= 20 /\
    blank (body_student_class b) = false) /\
   0 <= body_marks b <= 100).
Proof.
  split; [|split].
  - intros Hv. apply StudentIn_new_iff. now split.
  - intros Hn. destruct (StudentIn_new b) as [s|] eqn:E; [|reflexivity].
    exfalso. apply Hn. now apply (StudentIn_new_iff b s).
  - unfold valid_body. rewrite !is_empty_strip. tauto.
Qed.

Lemma StudentIn_new_decides_witness :
  StudentIn_new ann_body = Some ann /\
  StudentIn_new padded_class_body = None.
Proof.
  split.
  - apply (proj1 (StudentIn_new_decides ann_body)).
    unfold valid_body. simpl. unfold PyStr.len. simpl.
    repeat split; try reflexivity; lia.
  - apply (proj1 (proj2 (StudentIn_new_decides padded_class_body))).
    intros (_ & _ & H & _). unfold PyStr.len in H. simpl in H. lia.
Defined.

(** X2.  The validators [strip_and_validate_name] and
    [strip_and_validate_class] refuse exactly the texts made of whitespace
    only (the empty text among them); any other text comes back trimmed:
    not empty, no longer than it was, with no whitespace at either end,
    and trimming it again changes nothing. *)
Theorem strip_and_validate_behaviour (v : string) :
  (strip_and_validate_name v = None <-> blank v = true) /\
  (strip_and_validate_class v = None <-> blank v = true) /\
  (forall w,
     strip_and_validate_name v = Some w \/
     strip_and_validate_class v = Some w ->
     blank v = false /\ w = PyStr.strip v /\ PyStr.is_empty w = false /\
     PyStr.len w <= PyStr.len v /\
     PyStr.lstrip w = w /\ PyStr.rstrip w = w /\ PyStr.strip w = w).
Proof.
  assert (Hnone : strip_and_validate_name v = None <-> blank v = true).
  { unfold strip_and_validate_name. rewrite is_empty_strip.
    destruct (blank v); split; congruence. }
  split; [exact Hnone|]. split; [exact Hnone|].
  intros w Hw.
  assert (H : strip_and_validate_name v = Some w) by (destruct Hw; assumption).
  apply strip_and_validate_Some in H. destruct H as [-> Hne].
  split; [now rewrite <- is_empty_strip|].
  split; [reflexivity|]. split; [exact Hne|].
  split; [apply len_strip|].
  destruct (strip_ends v) as [Hl Hr].
  split; [exact Hl|]. split; [exact Hr|apply strip_idem].
Qed.

(** ** More on dictionaries *)

Section DictMore.

Context {V : Type}.
Implicit Types (d : Dict.dict V) (k : string) (v : V).

Lemma remove_absent d k : Dict.get d k = None -> Dict.remove d k = d.
Proof.
  induction d as [|[k' v'] d IH]; simpl; [reflexivity|].
  destruct (String.eqb k' k) eqn:E; [discriminate|]. simpl.
  intros H. now rewrite IH.
Qed.

Lemma remove_set_absent d k v :
  Dict.get d k = None -> Dict.remove (Dict.set d k v) k = d.
Proof.
  induction d as [|[k' v'] d IH]; simpl.
  - now rewrite String.eqb_refl.
  - destruct (String.eqb k' k) eqn:E; [discriminate|]. simpl. rewrite E.
    simpl. intros H. now rewrite IH.
Qed.

Lemma values_set_absent d k v :
  Dict.get d k = None ->
  Dict.values (Dict.set d k v) = (Dict.values d ++ [v])%list.
Proof.
  unfold Dict.values.
  induction d as [|[k' v'] d IH]; simpl; [reflexivity|].
  destruct (String.eqb k' k) eqn:E; [discriminate|]. simpl.
  intros H. now rewrite IH.
Qed.

Lemma In_get_wf d k v : Dict.wf d -> In (k, v) d -> Dict.get d k = Some v.
Proof.
  unfold Dict.wf, Dict.keys.
  induction d as [|[k' v'] d IH]; simpl; intros Hwf Hin; [easy|].
  destruct Hin as [H|H].
  - injection H as -> ->. now rewrite String.eqb_refl.
  - inversion Hwf as [|? ? Hk Hwf']; subst.
    destruct (String.eqb k' k) eqn:E; [|now apply IH].
    apply String.eqb_eq in E. subst k'. exfalso. apply Hk.
    change k with (fst (k, v)). now apply in_map.
Qed.

(** Values under two different keys have different images under [f] when
    the images of all values are pairwise different. *)
Lemma images_differ {B : Type} (f : V -> B) d k1 v1 k2 v2 :
  NoDup (map f (Dict.values d)) ->
  In (k1, v1) d -> In (k2, v2) d -> k1 <> k2 -> f v1 <> f v2.
Proof.
  unfold Dict.values.
  induction d as [|[k v] d IH]; simpl; intros Hnd H1 H2 Hne; [easy|].
  inversion Hnd as [|? ? Hf Hnd']; subst.
  assert (Himg : forall k0 v0, In (k0, v0) d -> In (f v0) (map f (map snd d))).
  { intros k0 v0 Hin. apply in_map. change v0 with (snd (k0, v0)).
    now apply in_map. }
  destruct H1 as [H1|H1], H2 as [H2|H2].
  - congruence.
  - injection H1 as -> ->. intros E. apply Hf. rewrite E. now apply (Himg k2).
  - injection H2 as -> ->. intros E. apply Hf. rewrite <- E.
    now apply (Himg k1).
  - now apply IH.
Qed.

End DictMore.

(** ** What a request can do to the store *)

Section ServeCases.

(** A request leaves the store as it is, or stores a validated record
    under its own id, or removes the entry of a key that is present. *)
Lemma serve_store_cases (r : request) (students : store) :
  snd (serve r students) = students \/
  (exists k body student,
     StudentIn_new body = Some student /\
     snd (serve r students) = Dict.set students k (mkStudentOut student k))
  \/
  (exists k removed,
     Dict.get students k = Some removed /\
     snd (serve r students) = Dict.remove students k).
Proof.
  destruct r as [uuid4 body|student_id body|student_id]; simpl.
  - destruct (StudentIn_new body) as [student|] eqn:Hv; [|now left].
    destruct (existsb (fun s => same_name_class s student)
                (Dict.values students)) eqn:E.
    + apply create_scan_spec in E.
      rewrite (create_student_duplicate _ uuid4 _ E). now left.
    + assert (Hfresh : ~ pair_present students student).
      { intros H. apply create_scan_spec in H. congruence. }
      rewrite (create_student_fresh _ uuid4 _ _ Hv Hfresh).
      right; left. now exists uuid4, body, student.
  - destruct (StudentIn_new body) as [updated|] eqn:Hv; [|now left].
    destruct (Dict.get students student_id) as [old|] eqn:Hold.
    + destruct (existsb (fun e : string * StudentOut =>
                  let (sid, s) := e in
                  negb (String.eqb sid student_id)
                  && same_name_class s updated) (Dict.items students)) eqn:E.
      * apply update_scan_spec in E.
        rewrite (update_student_collision _ _ _ _ Hold E). now left.
      * assert (Hfresh : ~ pair_present_elsewhere students student_id updated).
        { intros H. apply update_scan_spec in H. congruence. }
        rewrite (update_student_replace _ _ _ _ _ Hv Hold Hfresh).
        right; left. now exists student_id, body, updated.
    + rewrite (update_student_absent _ _ _ Hold). now left.
  - destruct (Dict.get students student_id) as [removed|] eqn:Hold.
    + rewrite (delete_student_present _ _ _ Hold).
      right; right. now exists student_id, removed.
    + rewrite (delete_student_absent _ _ Hold). now left.
Qed.

Lemma all_validated_serve (r : request) (students : store) :
  all_validated students -> all_validated (snd (serve r students)).
Proof.
  intros Hall.
  destruct (serve_store_cases r students)
    as [->|[(k & body & student & Hv & ->)|(k & removed & _ & ->)]].
  - exact Hall.
  - intros k0 s Hin. destruct (In_set _ _ _ _ _ Hin) as [[-> ->]|Hin'].
    + simpl. now apply (StudentIn_new_dict body).
    + now apply (Hall k0).
  - intros k0 s Hin. apply In_remove in Hin. now apply (Hall k0).
Qed.

Lemma reachable_all_validated (students : store) :
  reachable students -> all_validated students.
Proof.
  induction 1 as [|r students _ IH].
  - intros k s [].
  - now apply all_validated_serve.
Qed.

Lemma validated_fields_ok (s : StudentIn) :
  StudentIn_new (StudentIn_dict s) = Some s -> fields_ok s.
Proof.
  intros H. apply StudentIn_new_iff in H. simpl in H.
  destruct H as ((H1 & H2 & H3 & H4 & H5) & E).
  destruct s as [n c m]. simpl in *. injection E as En Ec.
  unfold fields_ok. simpl. rewrite <- En, <- Ec. tauto.
Qed.

End ServeCases.

(** X3.  Every record of a reachable store meets the constraints the model
    declares: name of 1 to 100 characters, class of 1 to 20 characters,
    neither with whitespace at an end, marks in 0..100; building a
    [StudentIn] from its fields again succeeds and changes nothing. *)
Theorem reachable_records_fields_ok (students : store) :
  reachable students ->
  forall k s,
    In (k, s) (Dict.items students) ->
    fields_ok s /\ StudentIn_new (StudentIn_dict s) = Some (to_StudentIn s).
Proof.
  intros Hr k s Hin.
  pose proof (reachable_all_validated students Hr k s Hin) as H.
  split; [now apply validated_fields_ok|exact H].
Qed.

Lemma reachable_records_fields_ok_witness :
  reachable sample_store /\
  fields_ok bob /\ StudentIn_new (StudentIn_dict bob) = Some bob.
Proof.
  split; [exact sample_store_reachable|].
  apply (reachable_records_fields_ok sample_store sample_store_reachable
           "u2" (mkStudentOut bob "u2")).
  right; left; reflexivity.
Defined.

(** ** Sorting keeps ties in place *)

Section Stability.

Context {A K : Type}.
Variable ltb : K -> K -> bool.
Variable key : A -> K.
Variable tied : A -> bool.
Hypothesis tied_not_below :
  forall x y, tied x = true -> tied y = true -> ltb (key x) (key y) = false.

Lemma filter_tied_insert (x : A) (l : list A) :
  filter tied (PySort.insert ltb key x l) = filter tied (x :: l).
Proof.
  induction l as [|y l IH]; [reflexivity|].
  simpl PySort.insert. destruct (ltb (key y) (key x)) eqn:E; [|reflexivity].
  simpl in *. rewrite IH.
  destruct (tied y) eqn:Ey; [|reflexivity].
  destruct (tied x) eqn:Ex; [|reflexivity].
  rewrite (tied_not_below y x Ey Ex) in E. discriminate E.
Qed.

Lemma filter_tied_sort_asc (l : list A) :
  filter tied (PySort.sort_asc ltb key l) = filter tied l.
Proof.
  induction l as [|x l IH]; [reflexivity|].
  simpl PySort.sort_asc. rewrite filter_tied_insert. simpl. now rewrite IH.
Qed.

Lemma filter_reversed (l : list A) :
  filter tied (rev l) = rev (filter tied l).
Proof.
  induction l as [|x l IH]; [reflexivity|].
  simpl. rewrite filter_app, IH. simpl.
  destruct (tied x); simpl; [reflexivity|now rewrite app_nil_r].
Qed.

Lemma filter_tied_sort (reverse : bool) (l : list A) :
  filter tied (PySort.sort ltb key reverse l) = filter tied l.
Proof.
  unfold PySort.sort. destruct reverse; [|apply filter_tied_sort_asc].
  rewrite filter_reversed, filter_tied_sort_asc, filter_reversed.
  apply rev_involutive.
Qed.

End Stability.

Section StableKeys.

Lemma str_ltb_irrefl (x : string) : String.ltb x x = false.
Proof.
  unfold String.ltb. pose proof (String.compare_antisym x x) as H.
  destruct (String.compare x x); simpl in H; congruence.
Qed.

Lemma sort_keeps_str_ties (f : StudentOut -> string) (k : string)
    (reverse : bool) (l : list StudentOut) :
  filter (fun s => String.eqb (f s) k)
         (PySort.sort sort_key_ltb (fun s => KStr (f s)) reverse l)
  = filter (fun s => String.eqb (f s) k) l.
Proof.
  apply filter_tied_sort. intros x y Hx Hy. simpl.
  apply String.eqb_eq in Hx, Hy. rewrite Hx, Hy. apply str_ltb_irrefl.
Qed.

Lemma sort_keeps_int_ties (f : StudentOut -> Z) (m : Z)
    (reverse : bool) (l : list StudentOut) :
  filter (fun s => f s =? m)
         (PySort.sort sort_key_ltb (fun s => KInt (f s)) reverse l)
  = filter (fun s => f s =? m) l.
Proof.
  apply filter_tied_sort. intros x y Hx Hy. simpl. lia.
Qed.

End StableKeys.

(** X4.  Sorting never reorders ties: whatever the direction, the records
    of the result that share a sort key (equal marks, or names or classes
    equal once lowered) stand in the order the store lists them. *)
Theorem get_students_sort_keeps_ties
    (students : store) (sort_by : string) (order fc : option string)
    (mn mx : option Z) :
  str_in (PyStr.lower sort_by) sort_attrs = true ->
  exists result,
    get_students (Some sort_by) order fc mn mx students = Return result /\
    (PyStr.lower sort_by = "marks" ->
     forall m,
       with_marks m result =
       with_marks m (filter_students fc mn mx (Dict.values students))) /\
    (PyStr.lower sort_by = "name" ->
     forall k,
       with_name_key k result =
       with_name_key k (filter_students fc mn mx (Dict.values students))) /\
    (PyStr.lower sort_by = "student_class" ->
     forall k,
       with_class_key k result =
       with_class_key k (filter_students fc mn mx (Dict.values students))).
Proof.
  intros Hin. unfold get_students. rewrite Hin.
  destruct (sort_attrs_cases _ Hin) as [E|[E|E]]; rewrite E; simpl;
    eexists; (split; [reflexivity|]);
    repeat split; intros E'; try discriminate E'; intros k.
  - apply (sort_keeps_str_ties (fun s => PyStr.lower (name s))).
  - apply (sort_keeps_int_ties (fun s => marks s)).
  - apply (sort_keeps_str_ties (fun s => PyStr.lower (student_class s))).
Qed.

Lemma get_students_sort_keeps_ties_witness :
  str_in (PyStr.lower "marks") sort_attrs = true /\
  get_students (Some "marks") (Some "desc") None None None tie_store =
  Return [mkStudentOut carl "u3"; mkStudentOut ann "u1";
          mkStudentOut dan "u4"; mkStudentOut bob "u2"] /\
  exists result,
    get_students (Some "marks") (Some "desc") None None None tie_store
    = Return result /\
    (PyStr.lower "marks" = "marks" ->
     forall m,
       with_marks m result =
       with_marks m (filter_students None None None (Dict.values tie_store)))
    /\
    (PyStr.lower "marks" = "name" ->
     forall k,
       with_name_key k result =
       with_name_key k
         (filter_students None None None (Dict.values tie_store))) /\
    (PyStr.lower "marks" = "student_class" ->
     forall k,
       with_class_key k result =
       with_class_key k
         (filter_students None None None (Dict.values tie_store))).
Proof.
  split; [reflexivity|]. split; [reflexivity|].
  exact (get_students_sort_keeps_ties tie_store "marks" (Some "desc")
           None None None eq_refl).
Defined.

(** ** Handlers in sequence *)

Section Sequences.

Lemma name_class_key_out (s : StudentOut) (i : string) :
  name_class_key (mkStudentOut s i) = name_class_key s.
Proof. reflexivity. Qed.

(** In a store with the invariant, no record under another key than [k]
    holds the pair of the record under [k]. *)
Lemma no_pair_elsewhere (students : store) (k : string) (old : StudentOut)
    (student : StudentIn) :
  store_inv students ->
  Dict.get students k = Some old ->
  holds_pair old student ->
  ~ pair_present_elsewhere students k student.
Proof.
  intros (_ & Hnd & _) Hold Hpair (sid & s & Hin & Hne & Hs).
  apply get_In in Hold.
  apply (images_differ name_class_key students sid s k old Hnd Hin Hold Hne).
  apply (holds_pair_key _ _ k) in Hpair, Hs. congruence.
Qed.

Lemma values_In_items {V : Type} (d : Dict.dict V) (v : V) :
  In v (Dict.values d) -> exists k, In (k, v) (Dict.items d).
Proof.
  unfold Dict.values, Dict.items. intros H. apply in_map_iff in H.
  destruct H as ([k v'] & <- & H). now exists k.
Qed.

End Sequences.

(** X5.  Creating a record under an id that is not in use and deleting it
    right away gives back the store as it was, entry for entry and in the
    same order; the delete outcome carries the record just created. *)
Theorem create_then_delete_restores
    (students : store) (uuid4 : string) (body : Body) (student : StudentIn) :
  StudentIn_new body = Some student ->
  ~ pair_present students student ->
  Dict.get students uuid4 = None ->
  exists students',
    create_student uuid4 student students =
    (Return (mkStatusResponse true "Student created successfully."
               (Some (mkStudentOut student uuid4))),
     students') /\
    delete_student uuid4 students' =
    (Return (mkStatusResponse true "Student deleted successfully."
               (Some (mkStudentOut student uuid4))),
     students).
Proof.
  intros Hv Hfresh Hnew.
  exists (Dict.set students uuid4 (mkStudentOut student uuid4)). split.
  - exact (create_student_fresh students uuid4 body student Hv Hfresh).
  - rewrite (delete_student_present _ uuid4 (mkStudentOut student uuid4)
               (get_set_same _ _ _)).
    now rewrite remove_set_absent.
Qed.

Lemma create_then_delete_restores_witness :
  StudentIn_new (StudentIn_dict dan) = Some dan /\
  Dict.get sample_store "u4" = None /\
  exists students',
    create_student "u4" dan sample_store =
    (Return (mkStatusResponse true "Student created successfully."
               (Some (mkStudentOut dan "u4"))),
     students') /\
    delete_student "u4" students' =
    (Return (mkStatusResponse true "Student deleted successfully."
               (Some (mkStudentOut dan "u4"))),
     sample_store).
Proof.
  split; [reflexivity|]. split; [reflexivity|].
  apply (create_then_delete_restores sample_store "u4" (StudentIn_dict dan)
           dan eq_refl); [|reflexivity].
  intros (s & Hin & [H _]). simpl in Hin.
  destruct Hin as [<-|[<-|[<-|[]]]]; discriminate H.
Defined.

(** X6.  A record created under an id that is not in use goes last: the
    unfiltered, unsorted list after the create is the list before it
    followed by the new record. *)
Theorem create_student_listed_last
    (students : store) (uuid4 : string) (body : Body) (student : StudentIn)
    (order : option string) :
  StudentIn_new body = Some student ->
  ~ pair_present students student ->
  Dict.get students uuid4 = None ->
  get_students None order None None None
    (snd (create_student uuid4 student students)) =
  Return (Dict.values students ++ [mkStudentOut student uuid4])%list.
Proof.
  intros Hv Hfresh Hnew.
  rewrite (create_student_fresh students uuid4 body student Hv Hfresh).
  unfold get_students, filter_students. simpl.
  now rewrite values_set_absent.
Qed.

Lemma create_student_listed_last_witness :
  StudentIn_new (StudentIn_dict dan) = Some dan /\
  Dict.get sample_store "u4" = None /\
  get_students None None None None None
    (snd (create_student "u4" dan sample_store)) =
  Return (Dict.values sample_store ++ [mkStudentOut dan "u4"])%list.
Proof.
  split; [reflexivity|]. split; [reflexivity|].
  apply (create_student_listed_last sample_store "u4" (StudentIn_dict dan)
           dan None eq_refl); [|reflexivity].
  intros (s & Hin & [H _]). simpl in Hin.
  destruct Hin as [<-|[<-|[<-|[]]]]; discriminate H.
Defined.

(** X7.  Uniqueness binds live records only: in a reachable store, once
    the record under an id is deleted, a student with the very same fields
    can be created again, under any id. *)
Theorem delete_then_create_again
    (students : store) (student_id uuid4 : string) (old : StudentOut) :
  reachable students ->
  Dict.get students student_id = Some old ->
  exists students',
    delete_student student_id students =
    (Return (mkStatusResponse true "Student deleted successfully."
               (Some old)),
     students') /\
    fst (create_student uuid4 old students') =
    Return (mkStatusResponse true "Student created successfully."
              (Some (mkStudentOut old uuid4))).
Proof.
  intros Hr Hold. exists (Dict.remove students student_id).
  split; [now apply delete_student_present|].
  pose proof (reachable_store_inv students Hr) as Hinv.
  pose proof (reachable_all_validated students Hr student_id old
                (get_In _ _ _ Hold)) as Hv.
  rewrite (create_student_fresh _ uuid4 (StudentIn_dict old) old Hv);
    [reflexivity|].
  intros (s & Hin & Hs). apply values_In_items in Hin.
  destruct Hin as (k & Hin). apply In_remove in Hin. destruct Hin as [Hin Hne].
  apply (no_pair_elsewhere students student_id old old Hinv Hold).
  - now split.
  - now exists k, s.
Qed.

Lemma delete_then_create_again_witness :
  reachable sample_store /\
  Dict.get sample_store "u2" = Some (mkStudentOut bob "u2") /\
  exists students',
    delete_student "u2" sample_store =
    (Return (mkStatusResponse true "Student deleted successfully."
               (Some (mkStudentOut bob "u2"))),
     students') /\
    fst (create_student "u5" (mkStudentOut bob "u2") students') =
    Return (mkStatusResponse true "Student created successfully."
              (Some (mkStudentOut (mkStudentOut bob "u2") "u5"))).
Proof.
  split; [exact sample_store_reachable|]. split; [reflexivity|].
  exact (delete_then_create_again sample_store "u2" "u5"
           (mkStudentOut bob "u2") sample_store_reachable eq_refl).
Defined.

(** X8.  In a reachable store an update that keeps the name and the class
    of the record (up to case) is never refused as a duplicate: with
    validated fields it succeeds and stores the new fields under the same
    id.  Changing only the marks always goes through. *)
Theorem update_student_same_pair
    (students : store) (student_id : string) (body : Body)
    (updated : StudentIn) (old : StudentOut) :
  reachable students ->
  Dict.get students student_id = Some old ->
  StudentIn_new body = Some updated ->
  holds_pair old updated ->
  update_student student_id updated students =
  (Return (mkStatusResponse true "Student updated successfully."
             (Some (mkStudentOut updated student_id))),
   Dict.set students student_id (mkStudentOut updated student_id)).
Proof.
  intros Hr Hold Hv Hpair.
  apply (update_student_replace students student_id body updated old Hv Hold).
  apply (no_pair_elsewhere students student_id old updated); try assumption.
  now apply reachable_store_inv.
Qed.

Lemma update_student_same_pair_witness :
  reachable sample_store /\
  Dict.get sample_store "u2" = Some (mkStudentOut bob "u2") /\
  StudentIn_new (StudentIn_dict bob_55) = Some bob_55 /\
  holds_pair (mkStudentOut bob "u2") bob_55 /\
  update_student "u2" bob_55 sample_store =
  (Return (mkStatusResponse true "Student updated successfully."
             (Some (mkStudentOut bob_55 "u2"))),
   Dict.set sample_store "u2" (mkStudentOut bob_55 "u2")).
Proof.
  split; [exact sample_store_reachable|]. split; [reflexivity|].
  split; [reflexivity|]. split; [split; reflexivity|].
  apply (update_student_same_pair sample_store "u2" (StudentIn_dict bob_55)
           bob_55 (mkStudentOut bob "u2") sample_store_reachable
           eq_refl eq_refl).
  split; reflexivity.
Defined.

(** X9.  Whatever it is called with (id present or not, fields validated
    or not, a collision or none), [update_student] leaves the keys of the
    store and their order as they are and touches no record under another
    key: it never adds, removes or moves a record. *)
Theorem update_student_keeps_keys
    (students : store) (student_id : string) (updated : StudentIn) :
  Dict.keys (snd (update_student student_id updated students))
  = Dict.keys students /\
  forall k, k <> student_id ->
    Dict.get (snd (update_student student_id updated students)) k
    = Dict.get students k.
Proof.
  unfold update_student, Dict.contains.
  destruct (Dict.get students student_id) as [old|] eqn:Hold; simpl;
    [|now split].
  destruct (existsb _ (Dict.items students)); simpl; [now split|].
  destruct (StudentOut_new student_id (StudentIn_dict updated))
    as [updated_student|]; simpl; [|now split].
  split; [now apply (keys_set_present _ _ _ old)|].
  intros k Hk. now apply get_set_other.
Qed.

(** ** Outcomes *)

Section Outcomes.

Lemma filter_none {A : Type} (p : A -> bool) (l : list A) :
  (forall a, p a = false) -> filter p l = [].
Proof.
  intros H. induction l as [|a l IH]; simpl; [reflexivity|].
  now rewrite H.
Qed.

(** What [serve] answers, case by case. *)
Lemma serve_outcome_cases (r : request) (students : store) :
  (fst (serve r students) = Raise RequestValidationError /\
   snd (serve r students) = students /\
   exists body,
     StudentIn_new body = None /\
     ((exists u, r = POST_students u body) \/
      (exists i, r = PUT_students i body)))
  \/
  (exists msg,
     fst (serve r students) = Return (mkStatusResponse false msg None) /\
     snd (serve r students) = students)
  \/
  (exists msg s,
     fst (serve r students) = Return (mkStatusResponse true msg (Some s))).
Proof.
  destruct r as [uuid4 body|student_id body|student_id]; simpl.
  - destruct (StudentIn_new body) as [student|] eqn:Hv.
    + destruct (existsb (fun s => same_name_class s student)
                  (Dict.values students)) eqn:E.
      * apply create_scan_spec in E.
        rewrite (create_student_duplicate _ uuid4 _ E).
        right; left. now eexists.
      * assert (Hfresh : ~ pair_present students student).
        { intros H. apply create_scan_spec in H. congruence. }
        rewrite (create_student_fresh _ uuid4 _ _ Hv Hfresh).
        right; right. now do 2 eexists.
    + left. repeat split. exists body. split; [exact Hv|]. left. now exists uuid4.
  - destruct (StudentIn_new body) as [updated|] eqn:Hv.
    + destruct (Dict.get students student_id) as [old|] eqn:Hold.
      * destruct (existsb (fun e : string * StudentOut =>
                    let (sid, s) := e in
                    negb (String.eqb sid student_id)
                    && same_name_class s updated) (Dict.items students)) eqn:E.
        -- apply update_scan_spec in E.
           rewrite (update_student_collision _ _ _ _ Hold E).
           right; left. now eexists.
        -- assert (Hfresh :
                     ~ pair_present_elsewhere students student_id updated).
           { intros H. apply update_scan_spec in H. congruence. }
           rewrite (update_student_replace _ _ _ _ _ Hv Hold Hfresh).
           right; right. now do 2 eexists.
      * rewrite (update_student_absent _ _ _ Hold).
        right; left. now eexists.
    + left. repeat split. exists body. split; [exact Hv|].
      right. now exists student_id.
  - destruct (Dict.get students student_id) as [removed|] eqn:Hold.
    + rewrite (delete_student_present _ _ _ Hold).
      right; right. now do 2 eexists.
    + rewrite (delete_student_absent _ _ Hold).
      right; left. now eexists.
Qed.

Lemma values_remove_by_id (students : store) (k : string) :
  ids_match_keys students ->
  Dict.values (Dict.remove students k)
  = filter (fun s : StudentOut => negb (String.eqb (id s) k))
           (Dict.values students).
Proof.
  unfold ids_match_keys, Dict.items, Dict.values, Dict.remove.
  induction students as [|[k' s] d IH]; simpl; intros Hid; [reflexivity|].
  rewrite (Hid k' s (or_introl eq_refl)).
  destruct (String.eqb k' k); simpl;
    rewrite IH; try reflexivity; intros k0 s0 Hin; apply Hid; now right.
Qed.

Lemma delete_student_store (students : store) (student_id : string) :
  snd (delete_student student_id students) = Dict.remove students student_id.
Proof.
  destruct (Dict.get students student_id) as [removed|] eqn:Hold.
  - now rewrite (delete_student_present _ _ _ Hold).
  - rewrite (delete_student_absent _ _ Hold). simpl.
    symmetry. now apply remove_absent.
Qed.

End Outcomes.

(** X10.  A marks window with [min_marks] above [max_marks] is not an
    error: the list is empty, sorted or not. *)
Theorem get_students_empty_window
    (students : store) (sort_by order fc : option string) (mn mx : Z) :
  mn > mx ->
  get_students None order fc (Some mn) (Some mx) students = Return [] /\
  forall result,
    get_students sort_by order fc (Some mn) (Some mx) students
    = Return result ->
    result = [].
Proof.
  intros Hgt.
  assert (E : filter_students fc (Some mn) (Some mx) (Dict.values students)
              = []).
  { rewrite filter_students_spec. apply filter_none. intros a.
    unfold passes_filtersb.
    destruct (mn <=? marks a) eqn:E1; [|now rewrite andb_false_r].
    replace (marks a <=? mx) with false by (symmetry; lia).
    now rewrite andb_false_r. }
  split.
  - unfold get_students. now rewrite E.
  - intros result H. apply get_students_Return_perm in H. rewrite E in H.
    now apply Permutation_nil.
Qed.

Lemma get_students_empty_window_witness :
  80 > 60 /\
  get_students None None None (Some 80) (Some 60) sample_store = Return [] /\
  forall result,
    get_students (Some "marks") None None (Some 80) (Some 60) sample_store
    = Return result ->
    result = [].
Proof.
  split; [lia|].
  apply (get_students_empty_window sample_store (Some "marks") None None
           80 60). lia.
Defined.

(** X11.  Outcomes have one shape: whenever a create, update or delete
    request or a lookup by id answers with a [StatusResponse], the record
    is there exactly when [success] is true. *)
Theorem outcome_data_iff_success (students : store) :
  (forall r resp,
     fst (serve r students) = Return resp ->
     (success resp = true <-> data resp <> None)) /\
  (forall student_id resp,
     get_student_by_id student_id students = Return resp ->
     (success resp = true <-> data resp <> None)).
Proof.
  split.
  - intros r resp H.
    destruct (serve_outcome_cases r students)
      as [(E & _)|[(msg & E & _)|(msg & s & E)]];
      rewrite E in H; [discriminate H| |]; injection H as <-; simpl;
      split; congruence.
  - intros student_id resp. unfold get_student_by_id.
    destruct (Dict.get students student_id); intros [= <-]; simpl;
      split; congruence.
Qed.

(** X12.  The store changes only when a request succeeds: if the store
    after a request differs from the store before it, the answer was an
    outcome with [success = true] carrying a record.  Refused bodies,
    duplicates and unknown ids leave every entry as it was. *)
Theorem store_changes_only_on_success (r : request) (students : store) :
  snd (serve r students) <> students ->
  exists msg s,
    fst (serve r students) = Return (mkStatusResponse true msg (Some s)).
Proof.
  intros Hne.
  destruct (serve_outcome_cases r students)
    as [(_ & E & _)|[(msg & _ & E)|H]]; [now elim Hne|now elim Hne|exact H].
Qed.

Lemma store_changes_only_on_success_witness :
  exists msg s,
    fst (serve (DELETE_students "u1") sample_store)
    = Return (mkStatusResponse true msg (Some s)).
Proof.
  apply (store_changes_only_on_success (DELETE_students "u1") sample_store).
  discriminate.
Defined.

(** X13.  A request that reaches a handler never makes it raise: the only
    exception a create, update or delete request can end in is the refusal
    of its body by validation.  Building the [StudentOut] inside
    [create_student] and [update_student] never fails on a validated
    model, and [delete_student] never pops a missing key. *)
Theorem serve_raises_only_on_refused_body
    (r : request) (students : store) (e : exn) :
  fst (serve r students) = Raise e ->
  e = RequestValidationError /\
  snd (serve r students) = students /\
  exists body,
    StudentIn_new body = None /\
    ((exists u, r = POST_students u body) \/
     (exists i, r = PUT_students i body)).
Proof.
  intros H.
  destruct (serve_outcome_cases r students)
    as [(E & Hs & Hb)|[(msg & E & _)|(msg & s & E)]];
    rewrite E in H; try discriminate H.
  injection H as <-. now repeat split.
Qed.

Lemma serve_raises_only_on_refused_body_witness :
  fst (serve (PUT_students "u1" padded_class_body) sample_store)
  = Raise RequestValidationError /\
  RequestValidationError = RequestValidationError /\
  snd (serve (PUT_students "u1" padded_class_body) sample_store)
  = sample_store /\
  exists body,
    StudentIn_new body = None /\
    ((exists u, PUT_students "u1" padded_class_body = POST_students u body) \/
     (exists i, PUT_students "u1" padded_class_body = PUT_students i body)).
Proof.
  split; [reflexivity|].
  exact (serve_raises_only_on_refused_body
           (PUT_students "u1" padded_class_body) sample_store
           RequestValidationError eq_refl).
Defined.

(** X14.  [get_students] fails in one way only: it raises exactly when
    [sort_by] is given and its lowered text is none of [name], [marks],
    [student_class], and what it raises is the 400 error "Invalid sort_by
    field".  Filters, [order] and the store never make it fail, and the
    lookup in [key_map] never misses. *)
Theorem get_students_raises_iff
    (students : store) (sort_by order fc : option string) (mn mx : option Z)
    (e : exn) :
  get_students sort_by order fc mn mx students = Raise e <->
  e = HTTPException 400 "Invalid sort_by field" /\
  exists s, sort_by = Some s /\ str_in (PyStr.lower s) sort_attrs = false.
Proof.
  split.
  - unfold get_students. destruct sort_by as [s|]; [|discriminate].
    destruct (str_in (PyStr.lower s) sort_attrs) eqn:Hin.
    + destruct (sort_attrs_cases _ Hin) as [E|[E|E]]; rewrite E; simpl;
        discriminate.
    + intros [= <-]. split; [reflexivity|]. now exists s.
  - intros (-> & s & -> & Hin). now apply get_students_unknown_sort_by.
Qed.

(** X15.  Deleting the same id twice: the second delete finds nothing,
    answers "Student not found." and leaves the store of the first. *)
Theorem delete_student_twice (students : store) (student_id : string) :
  delete_student student_id (snd (delete_student student_id students)) =
  (Return (mkStatusResponse false "Student not found." None),
   snd (delete_student student_id students)).
Proof.
  apply delete_student_absent. rewrite delete_student_store.
  apply get_remove_same.
Qed.

(** X16.  In a reachable store, the unfiltered, unsorted list after
    [delete_student] is the list before it without the record of that id,
    the others in the order they had; it is the same list when the id was
    unknown. *)
Theorem delete_student_then_list
    (students : store) (student_id : string) (order : option string) :
  reachable students ->
  get_students None order None None None
    (snd (delete_student student_id students)) =
  Return (filter (fun s : StudentOut => negb (String.eqb (id s) student_id))
                 (Dict.values students)) /\
  (Dict.get students student_id = None ->
   get_students None order None None None
     (snd (delete_student student_id students)) =
   get_students None order None None None students).
Proof.
  intros Hr. destruct (reachable_store_inv students Hr) as (_ & _ & Hid).
  split.
  - rewrite delete_student_store. unfold get_students, filter_students.
    now rewrite values_remove_by_id.
  - intros Hnone. now rewrite (delete_student_absent _ _ Hnone).
Qed.

Lemma delete_student_then_list_witness :
  reachable sample_store /\
  get_students None None None None None
    (snd (delete_student "u2" sample_store)) =
  Return [mkStudentOut ann "u1"; mkStudentOut carl "u3"].
Proof.
  split; [exact sample_store_reachable|].
  exact (proj1 (delete_student_then_list sample_store "u2" None
                  sample_store_reachable)).
Defined.

(** X17.  In a reachable store, every record that [get_students] returns,
    under any filters and any sorting, can be fetched by its own [id]:
    [get_student_by_id] on that id answers with success and this very
    record. *)
Theorem listed_record_found_by_id
    (students : store) (sort_by order fc : option string) (mn mx : option Z)
    (result : list StudentOut) (s : StudentOut) :
  reachable students ->
  get_students sort_by order fc mn mx students = Return result ->
  In s result ->
  get_student_by_id (id s) students =
  Return (mkStatusResponse true "Student retrieved successfully." (Some s)).
Proof.
  intros Hr Hget Hin.
  destruct (reachable_store_inv students Hr) as (Hwf & _ & Hid).
  apply get_students_Return_perm in Hget.
  apply (Permutation_in _ (Permutation_sym Hget)) in Hin.
  rewrite filter_students_spec in Hin. apply filter_In in Hin.
  destruct Hin as [Hin _]. apply values_In_items in Hin.
  destruct Hin as (k & Hin). rewrite (Hid k s Hin).
  unfold get_student_by_id. now rewrite (In_get_wf _ _ _ Hwf Hin).
Qed.

Lemma listed_record_found_by_id_witness :
  reachable sample_store /\
  get_students (Some "name") (Some "desc") (Some "10a") None None sample_store
  = Return [mkStudentOut bob "u2"] /\
  get_student_by_id "u2" sample_store =
  Return (mkStatusResponse true "Student retrieved successfully."
            (Some (mkStudentOut bob "u2"))).
Proof.
  split; [exact sample_store_reachable|]. split; [reflexivity|].
  apply (listed_record_found_by_id sample_store (Some "name") (Some "desc")
           (Some "10a") None None [mkStudentOut bob "u2"]
           (mkStudentOut bob "u2") sample_store_reachable eq_refl).
  left; reflexivity.
Defined.
